(** * node-llama-cpp: compute-layer detection and binding-binary verification

    A shallow embedding of
      - [src/bindings/utils/detectAvailableComputeLayers.ts] (the Detector),
      - [src/bindings/utils/testBindingBinary.ts] (the Supervisor and the
        Worker that runs in the forked child process),
    followed by the properties of the specification stated over it.

    Conventions.
      - JavaScript strings are [string]; case conversion is the ASCII one.
      - A call that may throw returns [Res A]; [try { .. } catch { .. }]
        is [try_catch].
      - The operating system (environment variables, file system,
        sub-process execution) is a record of functions, [Host].
      - The promise returned by [testBindingBinary] is observed through its
        settlement: [Resolved b] or [Rejected e]. *)

From Stdlib Require Import List String Ascii Bool Arith ZArith NArith Lia Sorted Permutation.
Import ListNotations.
Local Open Scope list_scope.
Local Open Scope string_scope.

Set Implicit Arguments.

(* ===================================================================== *)
(** * JavaScript string helpers                                           *)
(* ===================================================================== *)

Module JsString.

Definition isUpper (c : ascii) : bool :=
  let n := nat_of_ascii c in (65 <=? n)%nat && (n <=? 90)%nat.

Definition isLower (c : ascii) : bool :=
  let n := nat_of_ascii c in (97 <=? n)%nat && (n <=? 122)%nat.

Definition isDigit (c : ascii) : bool :=
  let n := nat_of_ascii c in (48 <=? n)%nat && (n <=? 57)%nat.

Definition lowerChar (c : ascii) : ascii :=
  if isUpper c then ascii_of_nat (nat_of_ascii c + 32) else c.

Definition upperChar (c : ascii) : ascii :=
  if isLower c then ascii_of_nat (nat_of_ascii c - 32) else c.

Fixpoint mapChars (f : ascii -> ascii) (s : string) : string :=
  match s with
  | EmptyString => EmptyString
  | String c r => String (f c) (mapChars f r)
  end.

(** [s.toLowerCase()], [s.toUpperCase()] *)
Definition toLowerCase : string -> string := mapChars lowerChar.
Definition toUpperCase : string -> string := mapChars upperChar.

(** [s.startsWith(p)] *)
Fixpoint startsWith (s p : string) : bool :=
  match p, s with
  | EmptyString, _ => true
  | String _ _, EmptyString => false
  | String a p', String b s' => Ascii.eqb a b && startsWith s' p'
  end.

(** [s.slice(n)] for [0 <= n] *)
Fixpoint slice (n : nat) (s : string) : string :=
  match n, s with
  | O, _ => s
  | S _, EmptyString => EmptyString
  | S n', String _ r => slice n' r
  end.

(** [s.includes(p)] *)
Fixpoint includes (s p : string) : bool :=
  startsWith s p ||
  match s with
  | EmptyString => false
  | String _ r => includes r p
  end.

(** [s.split(sep)] for a one-character separator *)
Fixpoint splitChar (sep : ascii) (s : string) : list string :=
  match s with
  | EmptyString => [EmptyString]
  | String c r =>
      if Ascii.eqb c sep then EmptyString :: splitChar sep r
      else match splitChar sep r with
           | [] => [String c EmptyString]
           | h :: t => String c h :: t
           end
  end.

(** The ASCII white space and line terminators removed by [trim]. *)
Definition isSpace (c : ascii) : bool :=
  let n := nat_of_ascii c in
  (n =? 32)%nat || ((9 <=? n)%nat && (n <=? 13)%nat).

Fixpoint trimStart (s : string) : string :=
  match s with
  | EmptyString => EmptyString
  | String c r => if isSpace c then trimStart r else s
  end.

Fixpoint trimEnd (s : string) : string :=
  match s with
  | EmptyString => EmptyString
  | String c r =>
      match trimEnd r with
      | EmptyString => if isSpace c then EmptyString else String c EmptyString
      | r' => String c r'
      end
  end.

Definition trim (s : string) : string := trimEnd (trimStart s).

Definition isEmpty (s : string) : bool :=
  match s with EmptyString => true | _ => false end.

End JsString.

(* ===================================================================== *)
(** * The [semver] package (external dependency)                          *)
(* ===================================================================== *)

(** The Detector only uses [semver.valid(semver.coerce(s))] and
    [semver.compare].  A coerced version has no pre-release part, so it is
    a triple of numbers and [compare] is the lexicographic comparison. *)

Module Semver.

Definition Version : Type := (N * N * N)%type.

(** [semver.compare(a, b)]: -1, 0 or 1. *)
Definition compare (a b : Version) : Z :=
  let '(a1, a2, a3) := a in
  let '(b1, b2, b3) := b in
  match N.compare a1 b1 with
  | Lt => (-1)%Z
  | Gt => 1%Z
  | Eq =>
      match N.compare a2 b2 with
      | Lt => (-1)%Z
      | Gt => 1%Z
      | Eq =>
          match N.compare a3 b3 with
          | Lt => (-1)%Z
          | Gt => 1%Z
          | Eq => 0%Z
          end
      end
  end.

(** ** A model of [valid(coerce(s))] with the default options

    [coerce] searches [s] for the first match of
    [(^|[^\d])(\d{1,16})(?:\.(\d{1,16}))?(?:\.(\d{1,16}))?(?:$|[^\d])]:
    the first maximal run of at most 16 digits is the major number; a
    following [.digits] group (again a maximal run of at most 16 digits)
    is the minor number and a second one the patch number; missing
    groups are 0.  The result is then parsed strictly: a number with a
    leading zero, or above [Number.MAX_SAFE_INTEGER], is refused. *)

Definition MAX_SAFE_COMPONENT_LENGTH : nat := 16.
Definition MAX_SAFE_INTEGER : N := 9007199254740991%N.

(** Splits a maximal run of digits off the front of [s]. *)
Fixpoint spanDigits (s : string) : list ascii * string :=
  match s with
  | EmptyString => ([], EmptyString)
  | String c r =>
      if JsString.isDigit c
      then let '(ds, rest) := spanDigits r in (c :: ds, rest)
      else ([], s)
  end.

Definition digitValue (c : ascii) : N := N.of_nat (nat_of_ascii c - 48).

Definition numberOf (ds : list ascii) : N :=
  fold_left (fun acc c => (10 * acc + digitValue c)%N) ds 0%N.

(** Strict numeric identifier: [0|[1-9]\d*], not above the safe range. *)
Definition strictNumber (ds : list ascii) : option N :=
  match ds with
  | [] => None
  | c :: rest =>
      if Ascii.eqb c "0" && negb (Nat.eqb (List.length rest) 0) then None
      else let n := numberOf ds in
           if (n <=? MAX_SAFE_INTEGER)%N then Some n else None
  end.

(** An optional [.digits] group at the front of [s]. *)
Definition dotGroup (s : string) : option (list ascii * string) :=
  match s with
  | String "." r =>
      let '(ds, rest) := spanDigits r in
      if Nat.eqb (List.length ds) 0 then None
      else if (List.length ds <=? MAX_SAFE_COMPONENT_LENGTH)%nat
           then Some (ds, rest) else None
  | _ => None
  end.

Definition zeroDigits : list ascii := ["0"%char].

(** The three digit groups of the first match, scanning from the left.
    [fuel] bounds the scan by the length of the string. *)
Fixpoint coerceGroups (fuel : nat) (s : string)
  : option (list ascii * list ascii * list ascii) :=
  match fuel with
  | O => None
  | S fuel' =>
      match s with
      | EmptyString => None
      | String c r =>
          if JsString.isDigit c then
            let '(ds, rest) := spanDigits s in
            if (List.length ds <=? MAX_SAFE_COMPONENT_LENGTH)%nat then
              match dotGroup rest with
              | None => Some (ds, zeroDigits, zeroDigits)
              | Some (mi, rest') =>
                  match dotGroup rest' with
                  | None => Some (ds, mi, zeroDigits)
                  | Some (pa, _) => Some (ds, mi, pa)
                  end
              end
            else coerceGroups fuel' rest
          else coerceGroups fuel' r
      end
  end.

(** [semver.valid(semver.coerce(s))], [None] for [null]. *)
Definition validCoerce (s : string) : option Version :=
  match coerceGroups (S (String.length s)) s with
  | None => None
  | Some (ma, mi, pa) =>
      match strictNumber ma, strictNumber mi, strictNumber pa with
      | Some a, Some b, Some c => Some (a, b, c)
      | _, _, _ => None
      end
  end.

End Semver.

(* ===================================================================== *)
(** * Ranking of CUDA installation folders                                *)
(* ===================================================================== *)

(** [Array.prototype.sort] is a stable sort.  The comparator used by the
    Detector is a total preorder (parsed names by version, every parsed
    name before every unparsed one, unparsed names all equal), for which a
    stable sort has exactly one result: the one of a stable insertion
    sort. *)

Section StableSort.
Variable A : Type.
Variable cmp : A -> A -> Z.

Fixpoint insertSorted (x : A) (l : list A) : list A :=
  match l with
  | [] => [x]
  | y :: r => if (cmp x y <=? 0)%Z then x :: y :: r
              else y :: insertSorted x r
  end.

Definition jsSort (l : list A) : list A := fold_right insertSorted [] l.
End StableSort.

Section Ranking.
(** [parse s] stands for [semver.valid(semver.coerce(s))]. *)
Variable parse : string -> option Semver.Version.

(** The comparator given to [sort] in [getCudaInstallationPaths]; the
    [catch] branch (result 0) is never taken since [parse] and
    [Semver.compare] are total. *)
Definition versionComparator (cudaFolderPrefix : string) (a b : string) : Z :=
  let aVersion := JsString.slice (String.length cudaFolderPrefix) a in
  let bVersion := JsString.slice (String.length cudaFolderPrefix) b in
  match parse aVersion, parse bVersion with
  | Some aVersionValid, Some bVersionValid =>
      Semver.compare aVersionValid bVersionValid
  | Some _, None => (-1)%Z
  | None, Some _ => 1%Z
  | None, None => 0%Z
  end.

(** [names.filter(n => n.toLowerCase().startsWith(prefix)).sort(cmp).reverse()] *)
Definition rankInstallationFolders (cudaFolderPrefix : string)
           (names : list string) : list string :=
  rev (jsSort (versionComparator cudaFolderPrefix)
         (filter (fun n => JsString.startsWith (JsString.toLowerCase n)
                                               cudaFolderPrefix)
                 names)).

Definition folderVersion (cudaFolderPrefix : string) (n : string)
  : option Semver.Version :=
  parse (JsString.slice (String.length cudaFolderPrefix) n).

Definition isParsable (cudaFolderPrefix : string) (n : string) : bool :=
  match folderVersion cudaFolderPrefix n with
  | Some _ => true
  | None => false
  end.
End Ranking.

(* ===================================================================== *)
(** * The Detector: detectAvailableComputeLayers.ts                       *)
(* ===================================================================== *)

Module Detector.

(** [BinaryPlatform]: the result of [getPlatform()], which maps the
    Windows family to "win", the Linux family to "linux", darwin to
    "mac" and returns any other [process.platform] unchanged. *)
Inductive BinaryPlatform : Type :=
| Win
| Linux
| Mac
| OtherPlatform (name : string).

Inductive Exn : Type :=
| ExecError (command : string)
| FsError (path : string).

Inductive Res (A : Type) : Type :=
| Ok (a : A)
| Throw (e : Exn).
Arguments Ok {A} a.
Arguments Throw {A} e.

Definition bind {A B : Type} (m : Res A) (k : A -> Res B) : Res B :=
  match m with
  | Ok a => k a
  | Throw e => Throw e
  end.

(** [try { body } catch (err) { handler }] *)
Definition try_catch {A : Type} (body : Res A) (handler : Exn -> Res A) : Res A :=
  match body with
  | Ok a => Ok a
  | Throw e => handler e
  end.

(** [await Promise.all(l.map(async x => f x))] *)
Fixpoint mapM {A B : Type} (f : A -> Res B) (l : list A) : Res (list B) :=
  match l with
  | [] => Ok []
  | x :: r => bind (f x) (fun y => bind (mapM f r) (fun ys => Ok (y :: ys)))
  end.

(** The machine the Detector probes. [pathExists] is fs-extra's, which
    answers [false] instead of failing; [readdir] and [execAsync] can
    fail; [pathJoin] is [path.join]. *)
Record Host : Type := {
  env : string -> option string;
  pathExists : string -> bool;
  readdir : string -> Res (list string);
  execAsync : string -> Res string;
  pathJoin : list string -> string;
  defaultSearchPaths : list string
}.

Record CudaSupport : Type := {
  hasNvidiaDriver : bool;
  hasCudaRuntime : bool
}.

Record ComputeLayers : Type := {
  cuda : CudaSupport;
  vulkan : bool;
  metal : bool;
  sycl : bool
}.

(** The own property names of the returned object literal, in order. *)
Definition keys (_ : ComputeLayers) : list string :=
  ["cuda"; "vulkan"; "metal"; "sycl"].

Definition dq : string := String (ascii_of_nat 34) EmptyString.
Definition lf : ascii := ascii_of_nat 10.
Definition cr : ascii := ascii_of_nat 13.
Definition bs : string := String (ascii_of_nat 92) EmptyString.

(** ** Helpers that are not part of the sources *)

Definition definedPaths (l : list (option string)) : list string :=
  flat_map (fun o => match o with Some p => [p] | None => [] end) l.

(** Modelled from the spec: [hasFileInPath] (hasFileInPath.js is missing)
    is the PathProbe, which "tests whether a named shared library exists
    anywhere in a list of candidate directories (plus default search
    locations). Pure, synchronous, no state." *)
Definition hasFileInPath (h : Host) (fileToSearch : string)
           (additionalSearchPaths : list (option string)) : bool :=
  existsb (fun dir => pathExists h (pathJoin h [dir; fileToSearch]))
          ((defaultSearchPaths h ++ definedPaths additionalSearchPaths)%list).

(** Modelled from the spec: [asyncSome] (asyncSome.js is missing) is the
    "OR" of its checks. *)
Definition asyncSome (checks : list bool) : bool := existsb (fun b => b) checks.

(** Modelled from the spec: [asyncEvery] (asyncEvery.js is missing) is
    the "AND" of its checks. *)
Definition asyncEvery (checks : list bool) : bool := forallb (fun b => b) checks.

(** ** Parsing the output of the hardware enumeration commands *)

Definition targetDeviceIds : list string :=
  [ "7D55"; "64A0"; "7D45"; "7D40";
    "7D67"; "7D51"; "7D41"; "56A0";
    "56A1"; "56A2"; "56A5"; "56A6";
    "E20B"; "E20C"; "E212"; "E211" ].

Definition isHexDigit (c : ascii) : bool :=
  let n := nat_of_ascii c in
  JsString.isDigit c
  || ((65 <=? n)%nat && (n <=? 70)%nat)
  || ((97 <=? n)%nat && (n <=? 102)%nat).

Fixpoint allChars (p : ascii -> bool) (s : string) : bool :=
  match s with
  | EmptyString => true
  | String c r => p c && allChars p r
  end.

(** Group 1 of [/DeviceID: ([0-9A-F]{4})/i] anchored at the front of [s]. *)
Definition deviceIdAt (s : string) : option string :=
  if JsString.startsWith (JsString.toLowerCase s) "deviceid: " then
    let g := String.substring 0 4 (JsString.slice 10 s) in
    if Nat.eqb (String.length g) 4 && allChars isHexDigit g
    then Some g else None
  else None.

(** [line.match(/DeviceID: ([0-9A-F]{4})/i)?.[1]]: the leftmost match. *)
Fixpoint matchDeviceId (line : string) : option string :=
  match deviceIdAt line with
  | Some g => Some g
  | None => match line with
            | EmptyString => None
            | String _ r => matchDeviceId r
            end
  end.

(** [s.split(sep)] for a non-empty separator string; [skip] counts the
    characters of an already matched separator still to be dropped. *)
Fixpoint splitAux (sep : string) (skip : nat) (s : string) : list string :=
  match s with
  | EmptyString => [EmptyString]
  | String c r =>
      match skip with
      | S k => splitAux sep k r
      | O =>
          if JsString.startsWith s sep
          then EmptyString :: splitAux sep (String.length sep - 1) r
          else match splitAux sep 0 r with
               | [] => [String c EmptyString]
               | seg :: t => String c seg :: t
               end
      end
  end.

Definition split (sep s : string) : list string := splitAux sep 0 s.

Definition winLineMatches (line : string) : bool :=
  if JsString.isEmpty line then false
  else match matchDeviceId line with
       | None => false
       | Some g =>
           let deviceId := JsString.toUpperCase g in
           if JsString.isEmpty deviceId then false
           else existsb (String.eqb deviceId) targetDeviceIds
       end.

(** [line.split(' Name: ')[1]?.split(' VID: ')[0] || line] *)
Definition winDeviceName (line : string) : string :=
  match nth_error (split " Name: " line) 1 with
  | None => line
  | Some afterName =>
      match split " VID: " afterName with
      | [] => line
      | name :: _ => if JsString.isEmpty name then line else name
      end
  end.

Definition winArcNames (stdout : string) : list string :=
  map winDeviceName
      (filter winLineMatches
              (map JsString.trim (JsString.splitChar lf stdout))).

Definition controllerKinds : list string :=
  ["VGA compatible controller"; "3D controller"; "Display controller"].

(** The longest prefix without a line terminator: what [.+] can match. *)
Fixpoint untilLineEnd (s : string) : string :=
  match s with
  | EmptyString => EmptyString
  | String c r =>
      if Ascii.eqb c lf || Ascii.eqb c cr then EmptyString
      else String c (untilLineEnd r)
  end.

(** Group 1 of [/(?:VGA compatible controller|3D controller|Display controller): (.+)/]
    anchored at the front of [s]. *)
Definition controllerAt (s : string) : option string :=
  fold_right
    (fun kind found =>
       let pat := kind ++ ": " in
       if JsString.startsWith s pat then
         let g := untilLineEnd (JsString.slice (String.length pat) s) in
         if JsString.isEmpty g then found else Some g
       else found)
    None controllerKinds.

Fixpoint matchController (line : string) : option string :=
  match controllerAt line with
  | Some g => Some g
  | None => match line with
            | EmptyString => None
            | String _ r => matchController r
            end
  end.

Definition linuxDeviceName (line : string) : string :=
  match matchController line with
  | Some g => JsString.trim g
  | None => JsString.trim line
  end.

Definition mentionsArc (name : string) : bool :=
  JsString.includes (JsString.toLowerCase name) "arc".

Definition linuxArcNames (stdout : string) : list string :=
  filter mentionsArc
         (map linuxDeviceName
              (filter (fun line => negb (JsString.isEmpty (JsString.trim line)))
                      (JsString.splitChar lf stdout))).

(** [line.split(':')[1]?.trim()] *)
Definition macChipset (line : string) : option string :=
  match nth_error (JsString.splitChar ":" line) 1 with
  | Some part => Some (JsString.trim part)
  | None => None
  end.

Definition macArcNames (stdout : string) : list string :=
  flat_map (fun o => match o with
                     | Some name =>
                         if negb (JsString.isEmpty name) && mentionsArc name
                         then [name] else []
                     | None => []
                     end)
           (map macChipset
                (filter (fun line => JsString.includes line "Chipset Model")
                        (JsString.splitChar lf stdout))).

Definition winEnumerationCommand : string :=
  "powershell -NoProfile -ExecutionPolicy Bypass -Command " ++ dq ++
  "Get-WmiObject Win32_VideoController | ForEach-Object { if ($_.ConfigManagerErrorCode -eq 0 -and $_.PNPDeviceID -match 'VEN_([0-9A-F]{4}).*DEV_([0-9A-F]{4})') { 'Name: ' + $_.Name + ' VID: ' + $matches[1] + ' DeviceID: ' + $matches[2] }}"
  ++ dq.

Definition linuxEnumerationCommand : string :=
  "lspci | grep -i " ++ dq ++ "vga" ++ bs ++ "|3d" ++ bs ++ "|display" ++ dq.

Definition macEnumerationCommand : string :=
  "system_profiler SPDisplaysDataType | grep " ++ dq ++ "Chipset Model" ++ dq.

Section WithHost.
Variable h : Host.

Definition nonEmptyEnv (name : string) : option string :=
  match env h name with
  | Some v => if JsString.isEmpty v then None else Some v
  | None => None
  end.

(** [a || b || ... || dflt] over environment variables. *)
Fixpoint firstTruthy (names : list string) (dflt : string) : string :=
  match names with
  | [] => dflt
  | n :: r => match nonEmptyEnv n with
              | Some v => v
              | None => firstTruthy r dflt
              end
  end.

Definition getWindir : string :=
  firstTruthy ["windir"; "WINDIR"; "SystemRoot"; "systemroot"; "SYSTEMROOT"]
              ("C:" ++ bs ++ "Windows").

(** [Array.from(new Set(l))]: first occurrences, in order. *)
Fixpoint dedupe (seen : list string) (l : list string) : list string :=
  match l with
  | [] => []
  | x :: r => if existsb (String.eqb x) seen then dedupe seen r
              else x :: dedupe (x :: seen) r
  end.

Definition getWindowsProgramFilesPaths : Res (list string) :=
  let systemDrive := match env h "SystemDrive" with
                     | Some d => d
                     | None => "C:"
                     end in
  let candidates :=
    [ env h "ProgramFiles(Arm)";
      env h "ProgramFiles";
      env h "ProgramFiles(x86)";
      Some (systemDrive ++ bs ++ "Program Files (Arm)");
      Some (systemDrive ++ bs ++ "Program Files");
      Some (systemDrive ++ bs ++ "Program Files (x86)") ] in
  bind (mapM (fun programFilesPath =>
                match programFilesPath with
                | None => Ok None
                | Some p => if pathExists h p then Ok (Some p) else Ok None
                end) candidates)
       (fun potentialPaths => Ok (dedupe [] (definedPaths potentialPaths))).

Definition existing (l : list string) : list string :=
  filter (pathExists h) l.

Definition withCudaPath (l : list string) : list string :=
  match env h "CUDA_PATH" with
  | Some p => if JsString.isEmpty p then l else p :: l
  | None => l
  end.

Definition rank : string -> list string -> list string :=
  rankInstallationFolders Semver.validCoerce.

(** Both branches run inside [try]/[catch]; the Linux branch pushes to
    its result only after the one call that can fail ([readdir]), so a
    caught failure returns the empty list there as well. *)
Definition getCudaInstallationPaths (platform : BinaryPlatform)
  : Res (list string) :=
  match platform with
  | Win =>
      try_catch
        (bind getWindowsProgramFilesPaths (fun programFilesPaths =>
         let potentialCudaInstallationsContainerPaths :=
           map (fun p => p ++ "/NVIDIA GPU Computing Toolkit/CUDA")
               programFilesPaths in
         let cudaInstallationsContainerPaths :=
           existing potentialCudaInstallationsContainerPaths in
         bind (mapM (fun container =>
                       bind (if pathExists h container
                             then readdir h container else Ok [])
                            (fun names =>
                               Ok (map (fun n => container ++ "/" ++ n)
                                       (rank "v" names))))
                    cudaInstallationsContainerPaths)
              (fun perContainer =>
                 let potentialCudaInstallations :=
                   withCudaPath (List.concat perContainer) in
                 Ok (existing potentialCudaInstallations))))
        (fun _ => Ok [])
  | Linux =>
      let usrLocal := "/usr/local" in
      try_catch
        (bind (if pathExists h usrLocal then readdir h usrLocal else Ok [])
              (fun names =>
                 let ranked :=
                   map (fun n => usrLocal ++ "/" ++ n) (rank "cuda-" names) in
                 let potentialCudaFolders :=
                   withCudaPath ((usrLocal ++ "/cuda") :: ranked) in
                 Ok (filter (fun cudaFolder =>
                               pathExists h (cudaFolder ++ "/targets"))
                            potentialCudaFolders)))
        (fun _ => Ok [])
  | _ => Ok []
  end.

(** The loop of [getLinuxCudaLibraryPaths]: [res] is what has been
    pushed so far; a failing [readdir] leaves the loop with the
    entries pushed before it. *)
Fixpoint libraryPathsLoop (installations : list string) (res : list string)
  : list string * option Exn :=
  match installations with
  | [] => (res, None)
  | cudaInstallationPath :: rest =>
      let cudaTargetsFolder := cudaInstallationPath ++ "/targets" in
      if negb (pathExists h cudaTargetsFolder)
      then libraryPathsLoop rest res
      else match readdir h cudaTargetsFolder with
           | Throw e => (res, Some e)
           | Ok names =>
               libraryPathsLoop rest
                 (List.app res (flat_map
                    (fun n => [cudaTargetsFolder ++ "/" ++ n ++ "/lib";
                               cudaTargetsFolder ++ "/" ++ n ++ "/lib/stubs"])
                    names))
           end
  end.

Definition getLinuxCudaLibraryPaths : Res (list string) :=
  match getCudaInstallationPaths Linux with
  | Throw e => Ok []
  | Ok installations => Ok (fst (libraryPathsLoop installations []))
  end.

(** [getCudaNvccPaths]: the installations are looked up outside the
    [try] block, the existence checks inside. *)
Definition getCudaNvccPaths (platform : BinaryPlatform) : Res (list string) :=
  bind (getCudaInstallationPaths platform) (fun cudaInstallationPaths =>
  let nvccPotentialPaths :=
    map (fun cudaInstallationPath =>
           match platform with
           | Win => pathJoin h [cudaInstallationPath; "bin"; "nvcc.exe"]
           | _ => pathJoin h [cudaInstallationPath; "bin"; "nvcc"]
           end)
        cudaInstallationPaths in
  try_catch
    (bind (mapM (fun nvccPotentialPath =>
                   if pathExists h nvccPotentialPath
                   then Ok (Some nvccPotentialPath) else Ok None)
                nvccPotentialPaths)
          (fun resolvedNvccPaths => Ok (definedPaths resolvedNvccPaths)))
    (fun _ => Ok [])).

(** ** CUDA *)

Definition cudartDlls : list string :=
  ["cudart64_110.dll"; "cudart64_11.dll"; "cudart64_12.dll"; "cudart64_13.dll"].
Definition cublasDlls : list string :=
  ["cublas64_11.dll"; "cublas64_12.dll"; "cublas64_13.dll"].
Definition cublasLtDlls : list string :=
  ["cublasLt64_11.dll"; "cublasLt64_12.dll"; "cublasLt64_13.dll"].

Definition libcudaSos : list string := ["libcuda.so"; "libcuda.so.1"].
Definition libcudartSos : list string :=
  ["libcudart.so"; "libcudart.so.11"; "libcudart.so.12"; "libcudart.so.13"].
Definition libcublasSos : list string :=
  ["libcublas.so"; "libcublas.so.11"; "libcublas.so.12"; "libcublas.so.13"].
Definition libcublasLtSos : list string :=
  ["libcublasLt.so"; "libcublasLt.so.11"; "libcublasLt.so.12"; "libcublasLt.so.13"].

(** [asyncSome([hasFileInPath(n1, paths), hasFileInPath(n2, paths), ...])] *)
Definition someFileInPath (names : list string)
           (paths : list (option string)) : bool :=
  asyncSome (map (fun n => hasFileInPath h n paths) names).

Definition winLibrarySearchPaths (installations : list string)
  : list (option string) :=
  map Some (flat_map (fun cudaInstallationPath =>
                        [cudaInstallationPath;
                         pathJoin h [cudaInstallationPath; "bin"]])
                     installations).

Definition linuxLibrarySearchPaths (cudaLibraryPaths : list string)
  : list (option string) :=
  ([ env h "LD_LIBRARY_PATH";
    env h "CUDA_PATH";
    Some "/usr/lib";
    Some "/usr/lib64";
    Some "/usr/lib/x86_64-linux-gnu";
    Some "/usr/lib/aarch64-linux-gnu";
    Some "/usr/lib/armv7l-linux-gnu" ] ++ map Some cudaLibraryPaths)%list.

Definition detectCudaSupport (platform : BinaryPlatform) : Res CudaSupport :=
  match platform with
  | Win =>
      bind (getCudaInstallationPaths Win) (fun installations =>
      let librarySearchPaths := winLibrarySearchPaths installations in
      let windir := getWindir in
      Ok {| hasNvidiaDriver :=
              asyncSome
                [ hasFileInPath h "nvml.dll" [];
                  pathExists h (pathJoin h [windir; "System32"; "nvml.dll"]) ];
            hasCudaRuntime :=
              asyncEvery
                [ someFileInPath cudartDlls librarySearchPaths;
                  someFileInPath cublasDlls librarySearchPaths;
                  someFileInPath cublasLtDlls librarySearchPaths ] |})
  | Linux =>
      bind getLinuxCudaLibraryPaths (fun cudaLibraryPaths =>
      let librarySearchPaths := linuxLibrarySearchPaths cudaLibraryPaths in
      Ok {| hasNvidiaDriver :=
              someFileInPath ["libnvidia-ml.so"; "libnvidia-ml.so.1"]
                             librarySearchPaths;
            hasCudaRuntime :=
              asyncEvery
                [ someFileInPath libcudaSos librarySearchPaths;
                  someFileInPath libcudartSos librarySearchPaths;
                  someFileInPath libcublasSos librarySearchPaths;
                  someFileInPath libcublasLtSos librarySearchPaths ] |})
  | _ => Ok {| hasNvidiaDriver := false; hasCudaRuntime := false |}
  end.

(** ** Vulkan and Metal *)

Definition termuxLibPath : option string :=
  match env h "PREFIX" with
  | Some prefix =>
      if JsString.includes (JsString.toLowerCase prefix) "termux"
      then Some (prefix ++ "/usr/lib")
      else None
  | None => None
  end.

Definition detectVulkanSupport (platform : BinaryPlatform) : Res bool :=
  match platform with
  | Win =>
      let windir := getWindir in
      Ok (asyncSome
            [ hasFileInPath h "vulkan-1.dll" [];
              pathExists h (pathJoin h [windir; "System32"; "vulkan-1.dll"]);
              pathExists h (pathJoin h [windir; "SysWOW64"; "vulkan-1.dll"]) ])
  | Linux =>
      let librarySearchPaths :=
        [ env h "LD_LIBRARY_PATH";
          Some "/usr/lib";
          Some "/usr/lib64";
          Some "/usr/lib/x86_64-linux-gnu";
          Some "/usr/lib/aarch64-linux-gnu";
          Some "/usr/lib/armv7l-linux-gnu";
          termuxLibPath ] in
      Ok (someFileInPath ["libvulkan.so"; "libvulkan.so.1"] librarySearchPaths)
  | Mac =>
      Ok (someFileInPath ["libvulkan.dylib"; "libvulkan.dylib.1"] [])
  | _ => Ok false
  end.

Definition detectMetalSupport (platform : BinaryPlatform) : Res bool :=
  Ok match platform with Mac => true | _ => false end.

(** ** SYCL (Intel Arc) *)

Definition getArcGpuDeviceNames (platform : BinaryPlatform)
  : Res (list string) :=
  try_catch
    match platform with
    | Win => bind (execAsync h winEnumerationCommand)
                  (fun stdout => Ok (winArcNames stdout))
    | Linux => bind (execAsync h linuxEnumerationCommand)
                    (fun stdout => Ok (linuxArcNames stdout))
    | Mac => bind (execAsync h macEnumerationCommand)
                  (fun stdout => Ok (macArcNames stdout))
    | _ => Ok []
    end
    (fun _ => Ok []).

Definition detectSyclSupport (platform : BinaryPlatform) : Res bool :=
  bind (getArcGpuDeviceNames platform)
       (fun gpuDeviceNames => Ok (0 <? List.length gpuDeviceNames)%nat).

(** ** The capability map *)

(** [Promise.all] of the four detections, then the object literal. *)
Definition detectAvailableComputeLayers (platform : BinaryPlatform)
  : Res ComputeLayers :=
  bind (detectCudaSupport platform) (fun cuda =>
  bind (detectVulkanSupport platform) (fun vulkan =>
  bind (detectMetalSupport platform) (fun metal =>
  bind (detectSyclSupport platform) (fun sycl =>
  Ok {| cuda := cuda; vulkan := vulkan; metal := metal; sycl := sycl |})))).

End WithHost.

End Detector.

(* ===================================================================== *)
(** * The protocol between Supervisor and Worker                          *)
(* ===================================================================== *)

Module Protocol.

(** [BuildGpu]: a backend name, or [false] for "no GPU backend". *)
Inductive BuildGpu : Type :=
| GpuFalse
| Gpu (name : string).

(** What [binding.getGpuType()] answers: [None] stands for
    [null]/[undefined]. *)
Definition GpuType : Type := option BuildGpu.

Definition BuildGpu_eqb (a b : BuildGpu) : bool :=
  match a, b with
  | GpuFalse, GpuFalse => true
  | Gpu x, Gpu y => String.eqb x y
  | _, _ => false
  end.

(** [gpuType === gpu] *)
Definition strictEquals (gpuType : GpuType) (gpu : BuildGpu) : bool :=
  match gpuType with
  | Some g => BuildGpu_eqb g gpu
  | None => false
  end.

Inductive ParentToChildMessage : Type :=
| Start (bindingBinaryPath : string) (gpu : BuildGpu)   (* type: "start" *)
| Test (bindingBinaryPath : string) (gpu : BuildGpu)    (* type: "test" *)
| Exit.                                                 (* type: "exit" *)

Inductive ChildToParentMessage : Type :=
| Ready      (* type: "ready" *)
| Loaded     (* type: "loaded" *)
| Done.      (* type: "done" *)

End Protocol.

(* ===================================================================== *)
(** * The Supervisor: testBindingBinary                                   *)
(* ===================================================================== *)

Module Supervisor.
Import Protocol.

(** The two errors the returned promise is rejected with. *)
Inductive TestError : Type :=
| TimedOutError              (* "Binding binary load test timed out" *)
| FailedToRunTestProcess.    (* "Binding binary test failed to run a test process via file ..." *)

(** Settlement of the promise returned by [testBindingBinary]. *)
Inductive Outcome : Type :=
| Resolved (passed : bool)
| Rejected (err : TestError).

Inductive ForkType : Type :=
| ElectronFork
| NodeFork.

Inductive ConsoleEntry : Type :=
| WarnNotIndependent        (* console.warn: the file is not independent *)
| WarnNodeSea               (* console.warn: node SEA is detected *)
| LogRunningInElectron
| ErrorElectronImportFailed
| LogUsingNodeFork
| ErrorTimedOut
| ErrorFailedToCreateSubprocess
| LogTestCompleted (passed : bool)
| ErrorNonZeroExit (code : option Z).

Definition isWarning (c : ConsoleEntry) : bool :=
  match c with
  | WarnNotIndependent | WarnNodeSea => true
  | _ => false
  end.

(** What the Supervisor does to the outside. *)
Inductive Action : Type :=
| Fork (type : ForkType)
| SendMessage (m : ParentToChildMessage)
| Kill
| Console (c : ConsoleEntry).

(** What happens to the Supervisor once the child has been forked. *)
Inductive Event : Type :=
| OnMessage (m : ChildToParentMessage)  (* subProcess "message" event *)
| OnExit (code : option Z)              (* subProcess "exit" event *)
| OnTimeout                             (* the [setTimeout] callback *)
| OnSpawn.                              (* the child has spawned: no listener,
                                           but the handle gets its [pid] *)

(** The process the function runs in. *)
Record Runtime : Type := {
  detectedFileName : string;        (* path.basename(__filename) *)
  platformIsLinux : bool;           (* getPlatform() === "linux" *)
  snapIsSet : bool;                 (* process.env.SNAP != null *)
  runningInBun : bool;
  runningInElectron : bool;
  nodeSeaIsSea : option bool;       (* import("node:sea") then isSea(); None: throws *)
  electronImports : bool;           (* import("electron") succeeds *)
  spawnKilled : bool;               (* subProcess.killed right after fork *)
  spawnExitCode : option Z          (* subProcess.exitCode right after fork *)
}.

Record Request : Type := {
  bindingBinaryPath : string;
  gpu : BuildGpu;
  testTimeout : Z;
  pipeOutputOnNode : bool
}.

Definition expectedFileName : string := "testBindingBinary".

(** The default value of the parameter [testTimeout]. *)
Definition defaultTestTimeout : Z := 1000 * 60 * 5.

(** The variables closed over by the handlers. *)
Record State : Type := {
  testPassed : bool;
  forkSucceeded : bool;
  timerPending : bool;          (* [timeoutHandle] set, not fired, not cleared *)
  subProcessAssigned : bool;    (* the outer [subProcess] is not undefined *)
  testFinished : bool;
  timeoutPromise : option Outcome;   (* first promise of the race *)
  testPromise : option Outcome;      (* second promise of the race *)
  racePromise : option Outcome;      (* what the caller awaits *)
  handleExitCode : option Z;    (* subProcess.exitCode, null until it exits *)
  pidKnown : bool;              (* Electron: subProcess.pid != null, from the
                                 spawn until the "exit" event has been emitted *)
  exited : bool;                (* the Electron branch's [exited] *)
  pipeSet : bool
}.

Definition initialState : State :=
  {| testPassed := false;
     forkSucceeded := false;
     timerPending := true;
     subProcessAssigned := false;
     testFinished := false;
     timeoutPromise := None;
     testPromise := None;
     racePromise := None;
     handleExitCode := None;
     pidKnown := false;
     exited := false;
     pipeSet := false |}.

(** A computation on the closure variables that also acts outside. *)
Definition Step : Type := State -> State * list Action.

Definition seq (a b : Step) : Step :=
  fun s => let '(s1, o1) := a s in
           let '(s2, o2) := b s1 in
           (s2, (o1 ++ o2)%list).

Definition skip : Step := fun s => (s, []).
Definition act (a : Action) : Step := fun s => (s, [a]).
Definition update (f : State -> State) : Step := fun s => (f s, []).
Definition when (c : State -> bool) (a : Step) : Step :=
  fun s => if c s then a s else (s, []).
Definition ifElse (c : State -> bool) (a b : Step) : Step :=
  fun s => if c s then a s else b s.

Notation "a ;; b" := (seq a b) (at level 61, right associativity).

Definition set_testPassed (v : bool) (s : State) : State :=
  {| testPassed := v; forkSucceeded := forkSucceeded s;
     timerPending := timerPending s; subProcessAssigned := subProcessAssigned s;
     testFinished := testFinished s; timeoutPromise := timeoutPromise s;
     testPromise := testPromise s; racePromise := racePromise s;
     handleExitCode := handleExitCode s; pidKnown := pidKnown s;
     exited := exited s; pipeSet := pipeSet s |}.

Definition set_forkSucceeded (v : bool) (s : State) : State :=
  {| testPassed := testPassed s; forkSucceeded := v;
     timerPending := timerPending s; subProcessAssigned := subProcessAssigned s;
     testFinished := testFinished s; timeoutPromise := timeoutPromise s;
     testPromise := testPromise s; racePromise := racePromise s;
     handleExitCode := handleExitCode s; pidKnown := pidKnown s;
     exited := exited s; pipeSet := pipeSet s |}.

Definition set_timerPending (v : bool) (s : State) : State :=
  {| testPassed := testPassed s; forkSucceeded := forkSucceeded s;
     timerPending := v; subProcessAssigned := subProcessAssigned s;
     testFinished := testFinished s; timeoutPromise := timeoutPromise s;
     testPromise := testPromise s; racePromise := racePromise s;
     handleExitCode := handleExitCode s; pidKnown := pidKnown s;
     exited := exited s; pipeSet := pipeSet s |}.

Definition set_subProcessAssigned (v : bool) (s : State) : State :=
  {| testPassed := testPassed s; forkSucceeded := forkSucceeded s;
     timerPending := timerPending s; subProcessAssigned := v;
     testFinished := testFinished s; timeoutPromise := timeoutPromise s;
     testPromise := testPromise s; racePromise := racePromise s;
     handleExitCode := handleExitCode s; pidKnown := pidKnown s;
     exited := exited s; pipeSet := pipeSet s |}.

Definition set_testFinished (v : bool) (s : State) : State :=
  {| testPassed := testPassed s; forkSucceeded := forkSucceeded s;
     timerPending := timerPending s; subProcessAssigned := subProcessAssigned s;
     testFinished := v; timeoutPromise := timeoutPromise s;
     testPromise := testPromise s; racePromise := racePromise s;
     handleExitCode := handleExitCode s; pidKnown := pidKnown s;
     exited := exited s; pipeSet := pipeSet s |}.

Definition set_promises (t m r : option Outcome) (s : State) : State :=
  {| testPassed := testPassed s; forkSucceeded := forkSucceeded s;
     timerPending := timerPending s; subProcessAssigned := subProcessAssigned s;
     testFinished := testFinished s; timeoutPromise := t;
     testPromise := m; racePromise := r;
     handleExitCode := handleExitCode s; pidKnown := pidKnown s;
     exited := exited s; pipeSet := pipeSet s |}.

Definition set_exit (code : option Z) (s : State) : State :=
  {| testPassed := testPassed s; forkSucceeded := forkSucceeded s;
     timerPending := timerPending s; subProcessAssigned := subProcessAssigned s;
     testFinished := testFinished s; timeoutPromise := timeoutPromise s;
     testPromise := testPromise s; racePromise := racePromise s;
     handleExitCode := code; pidKnown := pidKnown s;
     exited := exited s; pipeSet := pipeSet s |}.

Definition set_exited (v : bool) (s : State) : State :=
  {| testPassed := testPassed s; forkSucceeded := forkSucceeded s;
     timerPending := timerPending s; subProcessAssigned := subProcessAssigned s;
     testFinished := testFinished s; timeoutPromise := timeoutPromise s;
     testPromise := testPromise s; racePromise := racePromise s;
     handleExitCode := handleExitCode s; pidKnown := pidKnown s;
     exited := v; pipeSet := pipeSet s |}.

Definition set_pidKnown (v : bool) (s : State) : State :=
  {| testPassed := testPassed s; forkSucceeded := forkSucceeded s;
     timerPending := timerPending s; subProcessAssigned := subProcessAssigned s;
     testFinished := testFinished s; timeoutPromise := timeoutPromise s;
     testPromise := testPromise s; racePromise := racePromise s;
     handleExitCode := handleExitCode s; pidKnown := v;
     exited := exited s; pipeSet := pipeSet s |}.

Definition set_pipeSet (v : bool) (s : State) : State :=
  {| testPassed := testPassed s; forkSucceeded := forkSucceeded s;
     timerPending := timerPending s; subProcessAssigned := subProcessAssigned s;
     testFinished := testFinished s; timeoutPromise := timeoutPromise s;
     testPromise := testPromise s; racePromise := racePromise s;
     handleExitCode := handleExitCode s; pidKnown := pidKnown s;
     exited := exited s; pipeSet := v |}.

(** A settled promise ignores later [resolve]/[reject] calls, and the
    race takes the first settlement of either promise. *)
Definition orElse (p : option Outcome) (o : Outcome) : option Outcome :=
  match p with
  | Some x => Some x
  | None => Some o
  end.

(** [x == null] *)
Definition isNull {A : Type} (x : option A) : bool :=
  match x with None => true | Some _ => false end.

Definition isPending (p : option Outcome) : bool :=
  match p with None => true | Some _ => false end.

Definition settleTimeoutPromise (o : Outcome) : Step :=
  update (fun s =>
    if isPending (timeoutPromise s)
    then set_promises (Some o) (testPromise s) (orElse (racePromise s) o) s
    else s).

Definition settleTestPromise (o : Outcome) : Step :=
  update (fun s =>
    if isPending (testPromise s)
    then set_promises (timeoutPromise s) (Some o) (orElse (racePromise s) o) s
    else s).

Section WithRequest.
Variable req : Request.
Variable forkType : ForkType.

(** [cleanupNodeFork] / [cleanupElectronFork]: Node.js sends SIGKILL
    unless the handle already has an exit code; Electron kills when the
    handle has a pid or [exited] is not set, and sets [exited]. *)
Definition killProcess : Step :=
  match forkType with
  | NodeFork =>
      when (fun s => isNull (handleExitCode s)) (act Kill)
  | ElectronFork =>
      when (fun s => pidKnown s || negb (exited s))
           (act Kill ;; update (set_exited true))
  end.

Definition cleanup : Step :=
  update (set_testFinished true) ;;
  update (set_timerPending false) ;;
  when subProcessAssigned killProcess.

Definition done : Step :=
  ifElse (fun s => negb (forkSucceeded s))
         (act (Console ErrorFailedToCreateSubprocess) ;;
          settleTestPromise (Rejected FailedToRunTestProcess))
         (fun s => (act (Console (LogTestCompleted (testPassed s))) ;;
                    settleTestPromise (Resolved (testPassed s))) s) ;;
  cleanup.

Definition pipeMessages : Step :=
  match forkType with
  | NodeFork =>
      when (fun s => pipeOutputOnNode req && negb (pipeSet s))
           (update (set_pipeSet true))
  | ElectronFork => skip
  end.

Definition onMessage (message : ChildToParentMessage) : Step :=
  match message with
  | Ready =>
      update (set_forkSucceeded true) ;;
      act (SendMessage (Start (bindingBinaryPath req) (gpu req)))
  | Loaded =>
      pipeMessages ;;
      act (SendMessage (Test (bindingBinaryPath req) (gpu req)))
  | Done =>
      update (set_testPassed true) ;;
      act (SendMessage Exit)
  end.

(** [code !== 0] *)
Definition isNonZero (code : option Z) : bool :=
  match code with
  | Some c => negb (Z.eqb c 0)
  | None => true
  end.

Definition onExit (code : option Z) : Step :=
  when (fun _ => isNonZero code)
       (act (Console (ErrorNonZeroExit code)) ;;
        update (set_testPassed false)) ;;
  done.

(** [code ?? -1] *)
Definition orMinusOne (code : option Z) : option Z :=
  match code with
  | Some c => Some c
  | None => Some (-1)%Z
  end.

(** The listener registered with [subProcess.on("exit", ...)].  Node.js
    has stored the code in [subProcess.exitCode] when it emits the event
    ([null] for a child ended by a signal); Electron clears the pid once
    the event has been emitted. *)
Definition exitListener (code : option Z) : Step :=
  match forkType with
  | NodeFork =>
      update (set_exit code) ;;
      killProcess ;;
      onExit (orMinusOne code)
  | ElectronFork =>
      update (set_exited true) ;;
      killProcess ;;
      onExit code ;;
      update (set_pidKnown false)
  end.

(** The callback given to [setTimeout]. *)
Definition timeoutCallback : Step :=
  when timerPending
       (update (set_timerPending false) ;;
        act (Console ErrorTimedOut) ;;
        settleTimeoutPromise (Rejected TimedOutError) ;;
        cleanup).

Definition handle (e : Event) : Step :=
  match e with
  | OnMessage m => onMessage m
  | OnExit code => exitListener code
  | OnTimeout => timeoutCallback
  | OnSpawn =>
      match forkType with
      | NodeFork => skip
      | ElectronFork => update (set_pidKnown true)
      end
  end.

Fixpoint handleAll (evs : list Event) : Step :=
  match evs with
  | [] => skip
  | e :: rest => handle e ;; handleAll rest
  end.

(** [createTestProcess]: fork, register the listeners and, in the
    Node.js branch, report a child that is already dead. *)
Definition createTestProcess (rt : Runtime) : Step :=
  act (Fork forkType) ;;
  match forkType with
  | ElectronFork => skip
  | NodeFork =>
      update (fun s => {| testPassed := testPassed s;
                          forkSucceeded := forkSucceeded s;
                          timerPending := timerPending s;
                          subProcessAssigned := subProcessAssigned s;
                          testFinished := testFinished s;
                          timeoutPromise := timeoutPromise s;
                          testPromise := testPromise s;
                          racePromise := racePromise s;
                          handleExitCode := spawnExitCode rt;
                          pidKnown := pidKnown s;
                          exited := exited s;
                          pipeSet := pipeSet s |}) ;;
      when (fun _ => spawnKilled rt || negb (isNull (spawnExitCode rt)))
           (killProcess ;; onExit (orMinusOne (spawnExitCode rt)))
  end.

(** The two executors of [Promise.race]: the timer is armed in
    [initialState]; then the child is created, assigned to
    [subProcess] and killed at once if the test is already over. *)
Definition startTest (rt : Runtime) : Step :=
  createTestProcess rt ;;
  update (set_subProcessAssigned true) ;;
  when testFinished killProcess.
End WithRequest.

Definition getForkFunction (rt : Runtime) : ForkType * list Action :=
  if runningInElectron rt then
    if electronImports rt
    then (ElectronFork, [Console LogRunningInElectron])
    else (NodeFork, [Console LogRunningInElectron;
                     Console ErrorElectronImportFailed;
                     Console LogUsingNodeFork])
  else (NodeFork, [Console LogUsingNodeFork]).

(** The guard of the SEA check: inside a snap on Linux, under plain
    Node.js, with [isSea()] answering true; a failing import is ignored. *)
Definition nodeSeaDetected (rt : Runtime) : bool :=
  (platformIsLinux rt && snapIsSet rt)
  && negb (runningInBun rt) && negb (runningInElectron rt)
  && match nodeSeaIsSea rt with
     | Some b => b
     | None => false
     end.

(** One call of [testBindingBinary], observed after the events [evs]. *)
Record Run : Type := {
  outcome : option Outcome;     (* None: the promise is still pending *)
  actions : list Action;        (* everything done, in order *)
  final : option State          (* closure variables, if a child was forked *)
}.

Definition testBindingBinary (rt : Runtime) (req : Request)
           (evs : list Event) : Run :=
  if negb (JsString.startsWith (detectedFileName rt) expectedFileName) then
    {| outcome := Some (Resolved true);
       actions := [Console WarnNotIndependent];
       final := None |}
  else if nodeSeaDetected rt then
    {| outcome := Some (Resolved true);
       actions := [Console WarnNodeSea];
       final := None |}
  else
    let '(forkType, log) := getForkFunction rt in
    let '(s, acts) :=
      (startTest forkType rt ;; handleAll req forkType evs) initialState in
    {| outcome := racePromise s;
       actions := (log ++ acts)%list;
       final := Some s |}.

Definition isFork (a : Action) : bool :=
  match a with Fork _ => true | _ => false end.
Definition isKill (a : Action) : bool :=
  match a with Kill => true | _ => false end.
Definition isConsoleWarning (a : Action) : bool :=
  match a with Console c => isWarning c | _ => false end.

Definition sentMessages (acts : list Action) : list ParentToChildMessage :=
  flat_map (fun a => match a with SendMessage m => [m] | _ => [] end) acts.

Definition isExitEvent (e : Event) : bool :=
  match e with OnExit _ => true | _ => false end.
Definition isTimeoutEvent (e : Event) : bool :=
  match e with OnTimeout => true | _ => false end.
Definition isMessage (m : ChildToParentMessage) (e : Event) : bool :=
  match e, m with
  | OnMessage Ready, Ready => true
  | OnMessage Loaded, Loaded => true
  | OnMessage Done, Done => true
  | _, _ => false
  end.

(** The child is running as long as it has neither exited by itself nor
    been sent the kill signal. *)
Definition childRunning (evs : list Event) (r : Run) : bool :=
  existsb isFork (actions r)
  && negb (existsb isExitEvent evs)
  && negb (existsb isKill (actions r)).

End Supervisor.

(* ===================================================================== *)
(** * The Worker: the child-process half of testBindingBinary.ts          *)
(* ===================================================================== *)

Module Worker.
Import Protocol.

(** The calls made on the loaded binding, in the order of the log. *)
Inductive BindingCall : Type :=
| SetLoggerLogLevel (level : nat)
| LoadBackends (forceLoadFromDir : option string)
| GetGpuType
| Init
| GetGpuVramInfo
| GetGpuDeviceInfo
| EnsureGpuDeviceIsSupported.

(** The native addon, opaque: [B] is its internal state, a call either
    returns (with the new state) or throws ([None]). *)
Record Addon (B : Type) : Type := {
  require : string -> option B;
  invoke : BindingCall -> B -> option B;
  getGpuType : B -> option (B * GpuType);
  (** [path.dirname(path.resolve(p))] *)
  binaryDirectory : string -> string;
  (** [LlamaLogLevelToAddonLogLevel.get(LlamaLogLevel.error)] *)
  errorLogLevel : option nat
}.

Section WithAddon.
Variable B : Type.
Variable addon : Addon B.

(** The module-level variable [binding] and the log of the calls. *)
Record State : Type := {
  binding : option B;
  calls : list BindingCall
}.

Definition initialState : State := {| binding := None; calls := [] |}.

(** What handling one message does to the outside. *)
Record Reaction : Type := {
  after : State;
  sent : list ChildToParentMessage;
  exitCode : option Z       (* Some c: [process.exit(c)] was called *)
}.

(** A step inside a [try] block: it returns a value or throws
    ([None]); either way the binding's state and the log go on. *)
Definition Try (A : Type) : Type :=
  B * list BindingCall -> option A * (B * list BindingCall).

Definition ret {A : Type} (a : A) : Try A := fun st => (Some a, st).

Definition bind {A C : Type} (m : Try A) (k : A -> Try C) : Try C :=
  fun st => match m st with
            | (Some a, st') => k a st'
            | (None, st') => (None, st')
            end.

Definition throw {A : Type} : Try A := fun st => (None, st).

(** A call of a [void] method of the binding. *)
Definition call (c : BindingCall) : Try unit :=
  fun '(b, log) =>
    match invoke addon c b with
    | Some b' => (Some tt, (b', (log ++ [c])%list))
    | None => (None, (b, (log ++ [c])%list))
    end.

Definition callGetGpuType : Try GpuType :=
  fun '(b, log) =>
    match getGpuType addon b with
    | Some (b', g) => (Some g, (b', (log ++ [GetGpuType])%list))
    | None => (None, (b, (log ++ [GetGpuType])%list))
    end.

Notation "x <- m ;; k" := (bind m (fun x => k))
  (at level 61, m at next level, right associativity).
Notation "m ;;; k" := (bind m (fun _ => k))
  (at level 61, right associativity).

(** [loadedGpu == null || (loadedGpu === false && message.gpu !== false)] *)
Definition needsReload (loadedGpu : GpuType) (gpu : BuildGpu) : bool :=
  match loadedGpu with
  | None => true
  | Some GpuFalse => negb (BuildGpu_eqb gpu GpuFalse)
  | Some (Gpu _) => false
  end.

(** The [try] block of the "test" branch, after the check that the
    binding is loaded, up to the second [getGpuType()]: loading of the
    backends, the reload with the directory of the binary,
    initialization and the two queries. *)
Definition loadAndInitialize (bindingBinaryPath : string) (gpu : BuildGpu)
  : Try GpuType :=
  call (LoadBackends None) ;;;
  loadedGpu <- callGetGpuType ;;
  (if needsReload loadedGpu gpu
   then call (LoadBackends (Some (binaryDirectory addon bindingBinaryPath)))
   else ret tt) ;;;
  call Init ;;;
  call GetGpuVramInfo ;;;
  call GetGpuDeviceInfo ;;;
  callGetGpuType.

(** The whole block: then the comparison with the expected GPU type
    and the support check. *)
Definition testBody (bindingBinaryPath : string) (gpu : BuildGpu) : Try unit :=
  gpuType <- loadAndInitialize bindingBinaryPath gpu ;;
  (if negb (strictEquals gpuType gpu) then throw else ret tt) ;;;
  call EnsureGpuDeviceIsSupported.

Definition startBody : Try unit :=
  match errorLogLevel addon with
  | Some level => call (SetLoggerLogLevel level)
  | None => ret tt
  end.

(** The [onMessage] handler of the child process. *)
Definition onMessage (message : ParentToChildMessage) (s : State) : Reaction :=
  match message with
  | Start bindingBinaryPath _ =>
      match require addon bindingBinaryPath with
      | None => {| after := s; sent := []; exitCode := Some 1%Z |}
      | Some b =>
          match startBody (b, calls s) with
          | (Some _, (b', log)) =>
              {| after := {| binding := Some b'; calls := log |};
                 sent := [Loaded]; exitCode := None |}
          | (None, (b', log)) =>
              {| after := {| binding := Some b'; calls := log |};
                 sent := []; exitCode := Some 1%Z |}
          end
      end
  | Test bindingBinaryPath gpu =>
      match binding s with
      | None => {| after := s; sent := []; exitCode := Some 1%Z |}
      | Some b =>
          match testBody bindingBinaryPath gpu (b, calls s) with
          | (Some _, (b', log)) =>
              {| after := {| binding := Some b'; calls := log |};
                 sent := [Done]; exitCode := None |}
          | (None, (b', log)) =>
              {| after := {| binding := Some b'; calls := log |};
                 sent := []; exitCode := Some 1%Z |}
          end
      end
  | Exit => {| after := s; sent := []; exitCode := Some 0%Z |}
  end.

(** Start-up of the child process: the listener is registered and
    "ready" is sent. *)
Definition startup : Reaction :=
  {| after := initialState; sent := [Ready]; exitCode := None |}.

End WithAddon.

End Worker.

(* ===================================================================== *)
(** * A verification session: Supervisor and Worker together              *)
(* ===================================================================== *)

(** The Supervisor's actions reach the child process, whose reactions come
    back as events, in order, over the one channel between them.  A
    session describes the runs in which the deadline does not elapse
    before the child is gone: no [OnTimeout] is delivered. *)

Module Session.
Import Protocol.

Section WithSystem.
Variable B : Type.
Variable addon : Worker.Addon B.
Variable req : Supervisor.Request.
Variable forkType : Supervisor.ForkType.

Record System : Type := {
  supervisor : Supervisor.State;
  trace : list Supervisor.Action;          (* all Supervisor actions *)
  worker : Worker.State B;
  workerExit : option (option Z);          (* Some c: the child is gone *)
  workerSent : list ChildToParentMessage;  (* all Worker messages *)
  delivered : list Supervisor.Event;       (* events already handled *)
  inbox : list Supervisor.Event            (* events still to handle *)
}.

Definition exitEvents (code : option Z) : list Supervisor.Event :=
  match code with
  | Some c => [Supervisor.OnExit (Some c)]
  | None => []
  end.

Definition exitStatus (code : option Z) : option (option Z) :=
  match code with
  | Some c => Some (Some c)
  | None => None
  end.

(** The effect of one Supervisor action on the child process. *)
Definition deliver (sys : System) (a : Supervisor.Action) : System :=
  match workerExit sys with
  | Some _ => sys
  | None =>
      match a with
      | Supervisor.SendMessage m =>
          let r := Worker.onMessage addon m (worker sys) in
          {| supervisor := supervisor sys;
             trace := trace sys;
             worker := Worker.after r;
             workerExit := exitStatus (Worker.exitCode r);
             workerSent := (workerSent sys ++ Worker.sent r)%list;
             delivered := delivered sys;
             inbox := (inbox sys
                       ++ map Supervisor.OnMessage (Worker.sent r)
                       ++ exitEvents (Worker.exitCode r))%list |}
      | Supervisor.Kill =>
          {| supervisor := supervisor sys;
             trace := trace sys;
             worker := worker sys;
             workerExit := Some None;
             workerSent := workerSent sys;
             delivered := delivered sys;
             inbox := (inbox sys ++ [Supervisor.OnExit None])%list |}
      | _ => sys
      end
  end.

(** The Supervisor handles the next event and the child reacts. *)
Definition step (sys : System) : option System :=
  match inbox sys with
  | [] => None
  | e :: rest =>
      let '(s', acts) := Supervisor.handle req forkType e (supervisor sys) in
      Some (fold_left deliver acts
              {| supervisor := s';
                 trace := (trace sys ++ acts)%list;
                 worker := worker sys;
                 workerExit := workerExit sys;
                 workerSent := workerSent sys;
                 delivered := (delivered sys ++ [e])%list;
                 inbox := rest |})
  end.

Fixpoint run (fuel : nat) (sys : System) : System :=
  match fuel with
  | O => sys
  | S fuel' =>
      match step sys with
      | None => sys
      | Some sys' => run fuel' sys'
      end
  end.

(** The child has been forked and has sent "ready". *)
Definition boot (rt : Supervisor.Runtime) : System :=
  let '(s, acts) := Supervisor.startTest forkType rt Supervisor.initialState in
  let r := Worker.startup B in
  {| supervisor := s;
     trace := acts;
     worker := Worker.after r;
     workerExit := None;
     workerSent := Worker.sent r;
     delivered := [];
     inbox := map Supervisor.OnMessage (Worker.sent r) |}.

Definition session (rt : Supervisor.Runtime) (fuel : nat) : System :=
  run fuel (boot rt).

(** Nothing is left to happen. *)
Definition quiescent (sys : System) : bool :=
  match inbox sys with [] => true | _ => false end.

End WithSystem.

End Session.

(* ===================================================================== *)
(** * Vocabulary of the specification                                     *)
(* ===================================================================== *)

Module Spec.
Import Protocol.

(** ** Ranking *)

(** The order of versions: by major, then minor, then patch number. *)
Definition lexLe (a b : Semver.Version) : Prop :=
  let '(a1, a2, a3) := a in
  let '(b1, b2, b3) := b in
  (a1 < b1 \/ (a1 = b1 /\ (a2 < b2 \/ (a2 = b2 /\ a3 <= b3))))%N.

(** The folder names that carry the prefix, in discovery order. *)
Definition candidates (cudaFolderPrefix : string) (names : list string)
  : list string :=
  filter (fun n => JsString.startsWith (JsString.toLowerCase n) cudaFolderPrefix)
         names.

(** ** Detector *)



Definition isMac (platform : Detector.BinaryPlatform) : bool :=
  match platform with Detector.Mac => true | _ => false end.



(** A library class is found: one of its file names exists in one of
    the directories searched. *)
Definition libraryClassFound (h : Detector.Host) (names : list string)
           (paths : list (option string)) : Prop :=
  exists n d,
    In n names /\
    In d (Detector.defaultSearchPaths h ++ Detector.definedPaths paths)%list /\
    Detector.pathExists h (Detector.pathJoin h [d; n]) = true.

(** The directories [detectCudaSupport] searches for the runtime. *)
Definition cudaSearchPaths (h : Detector.Host)
           (platform : Detector.BinaryPlatform) : option (list (option string)) :=
  match platform with
  | Detector.Win =>
      match Detector.getCudaInstallationPaths h Detector.Win with
      | Detector.Ok installations =>
          Some (Detector.winLibrarySearchPaths h installations)
      | Detector.Throw _ => None
      end
  | Detector.Linux =>
      match Detector.getLinuxCudaLibraryPaths h with
      | Detector.Ok cudaLibraryPaths =>
          Some (Detector.linuxLibrarySearchPaths h cudaLibraryPaths)
      | Detector.Throw _ => None
      end
  | _ => None
  end.

Definition cudaRuntimeNames (platform : Detector.BinaryPlatform) : list string :=
  match platform with
  | Detector.Win => Detector.cudartDlls
  | _ => Detector.libcudartSos
  end.

Definition cublasNames (platform : Detector.BinaryPlatform) : list string :=
  match platform with
  | Detector.Win => Detector.cublasDlls
  | _ => Detector.libcublasSos
  end.

Definition cublasLtNames (platform : Detector.BinaryPlatform) : list string :=
  match platform with
  | Detector.Win => Detector.cublasLtDlls
  | _ => Detector.libcublasLtSos
  end.

(** ** Supervisor *)

(** The call does not throw: its promise is not rejected. *)
Definition neverThrows (r : Supervisor.Run) : Prop :=
  forall e, Supervisor.outcome r <> Some (Supervisor.Rejected e).

(** The guards before the fork let the call through. *)
Definition reachesFork (rt : Supervisor.Runtime) : Prop :=
  JsString.startsWith (Supervisor.detectedFileName rt)
                      Supervisor.expectedFileName = true /\
  Supervisor.nodeSeaDetected rt = false.

(** The forked child is alive when [fork] returns. *)
Definition spawnedAlive (rt : Supervisor.Runtime) : Prop :=
  Supervisor.spawnKilled rt = false /\ Supervisor.spawnExitCode rt = None.

Definition noExitIn (evs : list Supervisor.Event) : Prop :=
  existsb Supervisor.isExitEvent evs = false.

Definition noTimeoutIn (evs : list Supervisor.Event) : Prop :=
  existsb Supervisor.isTimeoutEvent evs = false.

Definition received (m : ChildToParentMessage)
           (evs : list Supervisor.Event) : bool :=
  existsb (Supervisor.isMessage m) evs.

Definition exitCodes (evs : list Supervisor.Event) : list (option Z) :=
  flat_map (fun e => match e with
                     | Supervisor.OnExit c => [c]
                     | _ => []
                     end) evs.

(** A process exits once. *)
Definition exitsAtMostOnce (evs : list Supervisor.Event) : Prop :=
  (List.length (exitCodes evs) <= 1)%nat.

(** The handshake is under way: the child is alive, nothing is settled
    and the timer is armed. *)
Definition awaiting (s : Supervisor.State) : Prop :=
  Supervisor.racePromise s = None /\
  Supervisor.testPromise s = None /\
  Supervisor.timeoutPromise s = None /\
  Supervisor.timerPending s = true /\
  Supervisor.subProcessAssigned s = true /\
  Supervisor.testFinished s = false /\
  Supervisor.handleExitCode s = None /\
  Supervisor.exited s = false.

(** What the Supervisor sends in reply to an event. *)
Definition reply (req : Supervisor.Request) (e : Supervisor.Event)
  : list ParentToChildMessage :=
  match e with
  | Supervisor.OnMessage Ready =>
      [Start (Supervisor.bindingBinaryPath req) (Supervisor.gpu req)]
  | Supervisor.OnMessage Loaded =>
      [Test (Supervisor.bindingBinaryPath req) (Supervisor.gpu req)]
  | Supervisor.OnMessage Done => [Exit]
  | _ => []
  end.

(** The settlement produced by the exit of the child during the
    handshake. *)
Definition exitOutcome (ready done : bool) (code : option Z)
  : Supervisor.Outcome :=
  if ready
  then Supervisor.Resolved (done && negb (Supervisor.isNonZero code))
  else Supervisor.Rejected Supervisor.FailedToRunTestProcess.

(** The name of the compiler looked for by [getCudaNvccPaths]. *)
Definition nvccName (platform : Detector.BinaryPlatform) : string :=
  match platform with
  | Detector.Win => "nvcc.exe"
  | _ => "nvcc"
  end.

(** What makes a folder an installation for [getCudaInstallationPaths]. *)
Definition isInstallation (h : Detector.Host)
           (platform : Detector.BinaryPlatform) (p : string) : Prop :=
  match platform with
  | Detector.Win => Detector.pathExists h p = true
  | Detector.Linux => Detector.pathExists h (p ++ "/targets") = true
  | _ => False
  end.


(** The fork chosen by [getForkFunction]. *)
Definition chosenFork (rt : Supervisor.Runtime) : Supervisor.ForkType :=
  if Supervisor.runningInElectron rt && Supervisor.electronImports rt
  then Supervisor.ElectronFork else Supervisor.NodeFork.


(** The guards before the fork, as a test. *)
Definition passesGuards (rt : Supervisor.Runtime) : bool :=
  JsString.startsWith (Supervisor.detectedFileName rt)
                      Supervisor.expectedFileName
  && negb (Supervisor.nodeSeaDetected rt).

(** Bookkeeping of the child: once the race is settled the child has
    been killed or seen to exit; the handle's exit code, and Electron's
    [exited] flag, are only set in such a case. *)
Definition accounted (forkType : Supervisor.ForkType) (s : Supervisor.State)
           (killed exitSeen : bool) : Prop :=
  Supervisor.subProcessAssigned s = true
  /\ (Supervisor.racePromise s <> None -> killed || exitSeen = true)
  /\ match forkType with
     | Supervisor.NodeFork =>
         Supervisor.handleExitCode s <> None -> exitSeen = true
     | Supervisor.ElectronFork =>
         Supervisor.exited s = true -> killed || exitSeen = true
     end.

(** ** Worker and session *)



(** The clean shutdown of the child: exit code 0. *)
Definition exitsCleanly {B : Type} (sys : Session.System B) : Prop :=
  Session.workerExit sys = Some (Some 0%Z).

(** The outcome the specification calls "graceful Failed": a failure
    result with the Worker exiting cleanly. *)
Definition gracefulFailure {B : Type} (sys : Session.System B) : Prop :=
  Supervisor.racePromise (Session.supervisor sys)
    = Some (Supervisor.Resolved false) /\
  exitsCleanly sys.

(** The binary loads: the Worker answers "start" with "loaded". *)
Definition binaryLoads {B : Type} (addon : Worker.Addon B)
           (req : Supervisor.Request) (s1 : Worker.State B) : Prop :=
  Worker.onMessage addon
    (Start (Supervisor.bindingBinaryPath req) (Supervisor.gpu req))
    (Worker.initialState B)
  = {| Worker.after := s1; Worker.sent := [Loaded]; Worker.exitCode := None |}.

(** Backend loading and initialization succeed from [s1], and the
    binding then reports [reported] as its GPU type. *)
Definition initializesAndReports {B : Type} (addon : Worker.Addon B)
           (req : Supervisor.Request) (s1 : Worker.State B)
           (reported : GpuType) : Prop :=
  exists b st,
    Worker.binding s1 = Some b /\
    Worker.loadAndInitialize addon (Supervisor.bindingBinaryPath req)
                             (Supervisor.gpu req) (b, Worker.calls s1)
    = (Some reported, st).

(** The condition of the reload, in the words of the specification. *)
Definition reprobeCondition (loadedGpu : GpuType) (gpu : BuildGpu) : Prop :=
  loadedGpu = None \/ (loadedGpu = Some GpuFalse /\ gpu <> GpuFalse).

Definition isReprobe (c : Worker.BindingCall) : bool :=
  match c with
  | Worker.LoadBackends (Some _) => true
  | _ => false
  end.

End Spec.

(* ===================================================================== *)
(** * Concrete machines, requests and bindings                            *)
(* ===================================================================== *)

Module Examples.
Import Protocol.

Definition joinWithSlash (parts : list string) : string :=
  String.concat "/" parts.


(** A machine where only CUDA_PATH leads to an installation and
    /usr/local does not exist. *)
Definition cudaPathHost : Detector.Host :=
  {| Detector.env := fun n =>
       if String.eqb n "CUDA_PATH" then Some "/opt/cuda" else None;
     Detector.pathExists := fun p => String.eqb p "/opt/cuda/targets";
     Detector.readdir := fun p => Detector.Throw (Detector.FsError p);
     Detector.execAsync := fun c => Detector.Throw (Detector.ExecError c);
     Detector.pathJoin := joinWithSlash;
     Detector.defaultSearchPaths := [] |}.

Definition cudaFolders : list string := ["cuda-9"; "cuda-10"; "cuda-bogus"].

Definition cudaPaths : list string :=
  [ "/usr/local";
    "/usr/local/cuda-9/targets"; "/usr/local/cuda-10/targets";
    "/usr/local/cuda-bogus/targets";
    "/usr/local/cuda-10/targets/x86_64-linux/lib/libcudart.so.12";
    "/usr/local/cuda-10/targets/x86_64-linux/lib/libcublas.so.12";
    "/usr/local/cuda-10/targets/x86_64-linux/lib/libcublasLt.so.12";
    "/usr/lib/libcuda.so.1" ].

(** A Linux machine whose /usr/local holds the three folders of the
    specification's ranking example, discovered in that order. *)
Definition linuxCudaHost : Detector.Host :=
  {| Detector.env := fun _ => None;
     Detector.pathExists := fun p => existsb (String.eqb p) cudaPaths;
     Detector.readdir := fun p =>
       if String.eqb p "/usr/local" then Detector.Ok cudaFolders
       else if JsString.startsWith p "/usr/local/cuda-"
            then Detector.Ok ["x86_64-linux"]
            else Detector.Throw (Detector.FsError p);
     Detector.execAsync := fun c => Detector.Throw (Detector.ExecError c);
     Detector.pathJoin := joinWithSlash;
     Detector.defaultSearchPaths := [] |}.

Definition nodeRuntime : Supervisor.Runtime :=
  {| Supervisor.detectedFileName := "testBindingBinary.js";
     Supervisor.platformIsLinux := true;
     Supervisor.snapIsSet := false;
     Supervisor.runningInBun := false;
     Supervisor.runningInElectron := false;
     Supervisor.nodeSeaIsSea := None;
     Supervisor.electronImports := false;
     Supervisor.spawnKilled := false;
     Supervisor.spawnExitCode := None |}.

(** The module has been bundled: its file is no longer
    testBindingBinary.js. *)
Definition bundledRuntime : Supervisor.Runtime :=
  {| Supervisor.detectedFileName := "bundle.js";
     Supervisor.platformIsLinux := true;
     Supervisor.snapIsSet := false;
     Supervisor.runningInBun := false;
     Supervisor.runningInElectron := false;
     Supervisor.nodeSeaIsSea := None;
     Supervisor.electronImports := false;
     Supervisor.spawnKilled := false;
     Supervisor.spawnExitCode := None |}.

Definition cudaRequest : Supervisor.Request :=
  {| Supervisor.bindingBinaryPath := "/bins/linux-x64-cuda/llama-addon.node";
     Supervisor.gpu := Gpu "cuda";
     Supervisor.testTimeout := 5000;
     Supervisor.pipeOutputOnNode := false |}.


(** A binding whose file cannot be loaded: [require] throws. *)
Definition brokenAddon : Worker.Addon unit :=
  {| Worker.require := fun _ => None;
     Worker.invoke := fun _ b => Some b;
     Worker.getGpuType := fun b => Some (b, None);
     Worker.binaryDirectory := fun _ => "/bins/linux-x64-cuda";
     Worker.errorLogLevel := Some 2%nat |}.

(** A binding that loads, initializes, and always reports [reported]. *)
Definition reportingAddon (reported : GpuType) : Worker.Addon unit :=
  {| Worker.require := fun _ => Some tt;
     Worker.invoke := fun _ b => Some b;
     Worker.getGpuType := fun b => Some (b, reported);
     Worker.binaryDirectory := fun _ => "/bins/linux-x64-cuda";
     Worker.errorLogLevel := Some 2%nat |}.

Definition vulkanAddon : Worker.Addon unit := reportingAddon (Some (Gpu "vulkan")).

Definition loadedState : Worker.State unit :=
  {| Worker.binding := Some tt;
     Worker.calls := [Worker.SetLoggerLogLevel 2] |}.

End Examples.

(* ===================================================================== *)
(** * Properties                                                          *)
(* ===================================================================== *)

Local Open Scope list_scope.

(* ===================================================================== *)
(** * Properties of the ranking                                           *)
(* ===================================================================== *)

Module SemverFacts.

Lemma compare_le_iff (a b : Semver.Version) :
  (Semver.compare a b <= 0)%Z <-> Spec.lexLe a b.
Proof.
  destruct a as [[a1 a2] a3], b as [[b1 b2] b3]; unfold Semver.compare, Spec.lexLe.
  destruct (N.compare_spec a1 b1); [ | split; intros; lia | split; intros; lia ].
  destruct (N.compare_spec a2 b2); [ | split; intros; lia | split; intros; lia ].
  destruct (N.compare_spec a3 b3); split; intros; lia.
Qed.

Lemma compare_total (a b : Semver.Version) :
  (Semver.compare a b <= 0)%Z \/ (Semver.compare b a <= 0)%Z.
Proof.
  rewrite !compare_le_iff.
  destruct a as [[a1 a2] a3], b as [[b1 b2] b3]; unfold Spec.lexLe; lia.
Qed.

Lemma compare_trans (a b c : Semver.Version) :
  (Semver.compare a b <= 0)%Z -> (Semver.compare b c <= 0)%Z ->
  (Semver.compare a c <= 0)%Z.
Proof.
  rewrite !compare_le_iff.
  destruct a as [[a1 a2] a3], b as [[b1 b2] b3], c as [[c1 c2] c3];
    unfold Spec.lexLe; lia.
Qed.

End SemverFacts.

Section RankingFacts.
Variable parse : string -> option Semver.Version.
Variable cudaFolderPrefix : string.

#[local] Abbreviation cmp := (versionComparator parse cudaFolderPrefix).
#[local] Abbreviation parsable := (isParsable parse cudaFolderPrefix).
#[local] Abbreviation before := (fun a b : string => (cmp a b <= 0)%Z).

Lemma comparator_total (a b : string) : before a b \/ before b a.
Proof.
  unfold versionComparator.
  destruct (parse _) as [va|], (parse _) as [vb|]; try lia.
  apply SemverFacts.compare_total.
Qed.

Lemma comparator_trans (a b c : string) :
  before a b -> before b c -> before a c.
Proof.
  unfold versionComparator.
  destruct (parse (JsString.slice _ a)) as [va|],
           (parse (JsString.slice _ b)) as [vb|],
           (parse (JsString.slice _ c)) as [vc|]; try lia.
  apply SemverFacts.compare_trans.
Qed.

Lemma comparator_parsable_unparsable (a b : string) :
  parsable a = true -> parsable b = false -> cmp a b = (-1)%Z.
Proof.
  unfold isParsable, folderVersion, versionComparator.
  destruct (parse _), (parse _); congruence.
Qed.

Lemma comparator_unparsable_parsable (a b : string) :
  parsable a = false -> parsable b = true -> cmp a b = 1%Z.
Proof.
  unfold isParsable, folderVersion, versionComparator.
  destruct (parse _), (parse _); congruence.
Qed.

Lemma comparator_unparsable (a b : string) :
  parsable a = false -> parsable b = false -> cmp a b = 0%Z.
Proof.
  unfold isParsable, folderVersion, versionComparator.
  destruct (parse _), (parse _); congruence.
Qed.

Lemma insertSorted_Forall (P : string -> Prop) (x : string) (l : list string) :
  P x -> Forall P l -> Forall P (insertSorted cmp x l).
Proof.
  intros Hx Hl; induction Hl as [|y r Hy Hr IH]; simpl.
  - constructor; auto.
  - destruct (cmp x y <=? 0)%Z; repeat constructor; auto.
Qed.

Lemma jsSort_Forall (P : string -> Prop) (l : list string) :
  Forall P l -> Forall P (jsSort cmp l).
Proof.
  induction 1; simpl; [constructor | apply insertSorted_Forall; auto].
Qed.

Lemma insertSorted_sorted (x : string) (l : list string) :
  StronglySorted before l -> StronglySorted before (insertSorted cmp x l).
Proof.
  induction 1 as [|y r Hr IH Hy]; simpl.
  - repeat constructor.
  - destruct (Z.leb_spec (cmp x y) 0) as [Hle|Hgt].
    + constructor; [constructor; auto|].
      constructor; auto.
      eapply Forall_impl; [|exact Hy].
      intros z Hz; eapply comparator_trans; eauto.
    + constructor; auto.
      apply insertSorted_Forall; auto.
      destruct (comparator_total x y); [lia|auto].
Qed.

(** The sort puts the folders in ascending order of the comparator. *)
Lemma jsSort_sorted (l : list string) : StronglySorted before (jsSort cmp l).
Proof.
  induction l; simpl; [constructor | apply insertSorted_sorted; auto].
Qed.

Lemma insertSorted_parsable (x : string) (P U : list string) :
  parsable x = true ->
  Forall (fun u => parsable u = false) U ->
  insertSorted cmp x (P ++ U) = insertSorted cmp x P ++ U.
Proof.
  intros Hx HU; induction P as [|y P IH]; simpl.
  - destruct HU as [|u U Hu HU]; simpl; auto.
    rewrite (comparator_parsable_unparsable _ _ Hx Hu); reflexivity.
  - destruct (cmp x y <=? 0)%Z; simpl; [reflexivity | now rewrite IH].
Qed.

Lemma insertSorted_unparsable (x : string) (P U : list string) :
  parsable x = false ->
  Forall (fun p => parsable p = true) P ->
  Forall (fun u => parsable u = false) U ->
  insertSorted cmp x (P ++ U) = P ++ x :: U.
Proof.
  intros Hx HP HU; induction HP as [|y P Hy HP IH]; simpl.
  - destruct HU as [|u U Hu HU]; simpl; auto.
    rewrite (comparator_unparsable _ _ Hx Hu); reflexivity.
  - rewrite (comparator_unparsable_parsable _ _ Hx Hy); simpl.
    now rewrite IH.
Qed.

Lemma filter_Forall_true (f : string -> bool) (l : list string) :
  Forall (fun x => f x = true) (filter f l).
Proof.
  induction l as [|a l IH]; simpl; [constructor|].
  destruct (f a) eqn:E; [constructor|]; auto.
Qed.

Lemma filter_Forall_false (f : string -> bool) (l : list string) :
  Forall (fun x => f x = false) (filter (fun x => negb (f x)) l).
Proof.
  induction l as [|a l IH]; simpl; [constructor|].
  destruct (f a) eqn:E; simpl; [|constructor]; auto.
Qed.

(** The sorted list is the parsable folders, sorted, followed by the
    unparsable ones in their original order. *)
Lemma jsSort_partition (l : list string) :
  jsSort cmp l
  = jsSort cmp (filter parsable l)
           ++ filter (fun n => negb (parsable n)) l.
Proof.
  induction l as [|x l IH]; simpl; [reflexivity|].
  rewrite IH.
  destruct (parsable x) eqn:Hx; simpl.
  - apply insertSorted_parsable; auto using filter_Forall_false.
  - apply insertSorted_unparsable; auto using filter_Forall_false.
    apply jsSort_Forall, filter_Forall_true.
Qed.

Lemma StronglySorted_snoc (R : string -> string -> Prop) (l : list string) (x : string) :
  StronglySorted R l -> Forall (fun y => R y x) l -> StronglySorted R (l ++ [x]).
Proof.
  induction 1 as [|y r Hr IH Hy]; intros Hx; simpl.
  - repeat constructor.
  - inversion Hx; subst. constructor; auto.
    apply Forall_app; split; auto.
Qed.

Lemma StronglySorted_rev (R : string -> string -> Prop) (l : list string) :
  StronglySorted R l -> StronglySorted (fun a b => R b a) (rev l).
Proof.
  induction 1 as [|y r Hr IH Hy]; simpl; [constructor|].
  apply StronglySorted_snoc; auto.
  apply Forall_rev; auto.
Qed.

(** What the ranking is, for every list of folder names: the unparsable
    candidates in reverse discovery order, followed by the parsable ones
    by descending version. *)
Theorem rankInstallationFolders_shape (names : list string) :
  exists parsed,
    rankInstallationFolders parse cudaFolderPrefix names
    = rev (filter (fun n => negb (parsable n)) (Spec.candidates cudaFolderPrefix names)) ++ parsed
    /\ Forall (fun n => parsable n = true) parsed
    /\ StronglySorted (fun a b => (cmp b a <= 0)%Z) parsed.
Proof.
  exists (rev (jsSort cmp (filter parsable (Spec.candidates cudaFolderPrefix names)))).
  split; [|split].
  - unfold rankInstallationFolders; fold (Spec.candidates cudaFolderPrefix names).
    rewrite jsSort_partition, rev_app_distr; reflexivity.
  - apply Forall_rev, jsSort_Forall, filter_Forall_true.
  - apply StronglySorted_rev, jsSort_sorted.
Qed.

End RankingFacts.

(** C1: evaluation of the ranking on the folders cuda-9, cuda-10,
    cuda-bogus, discovered in this order.  The code ranks the unparsable
    folder first: the result is cuda-bogus, cuda-10, cuda-9, not
    cuda-10, cuda-9, cuda-bogus; [getCudaInstallationPaths] returns the
    installation folders in this very order. *)
Theorem ranking_puts_unparsable_first :
  rankInstallationFolders Semver.validCoerce "cuda-" Examples.cudaFolders
    = ["cuda-bogus"; "cuda-10"; "cuda-9"]
  /\ rankInstallationFolders Semver.validCoerce "cuda-" Examples.cudaFolders
    <> ["cuda-10"; "cuda-9"; "cuda-bogus"]
  /\ Detector.getCudaInstallationPaths Examples.linuxCudaHost Detector.Linux
    = Detector.Ok ["/usr/local/cuda-bogus"; "/usr/local/cuda-10"; "/usr/local/cuda-9"].
Proof.
  split; [|split]; [vm_compute; reflexivity | vm_compute; discriminate | vm_compute; reflexivity].
Qed.

(* ===================================================================== *)
(** * Properties of the Detector                                          *)
(* ===================================================================== *)

Module DetectorFacts.
Import Detector.

Lemma mapM_ok (A C : Type) (f : A -> Res C) (l : list A) :
  (forall x, exists y, f x = Ok y) -> exists ys, mapM f l = Ok ys.
Proof.
  intros Hf; induction l as [|x l [ys IH]]; simpl; [eauto|].
  destruct (Hf x) as [y ->]; simpl; rewrite IH; simpl; eauto.
Qed.

Lemma try_catch_ok (A : Type) (body : Res A) (handler : Exn -> Res A) :
  (forall e, exists a, handler e = Ok a) ->
  exists a, try_catch body handler = Ok a.
Proof.
  intros Hh; destruct body as [a|e]; simpl; eauto.
Qed.

Section WithHost.
Variable h : Host.

(** No listing failure escapes [getCudaInstallationPaths]. *)
Lemma getCudaInstallationPaths_ok (platform : BinaryPlatform) :
  exists l, getCudaInstallationPaths h platform = Ok l.
Proof.
  destruct platform; simpl; eauto; apply try_catch_ok; eauto.
Qed.

Lemma getLinuxCudaLibraryPaths_ok :
  exists l, getLinuxCudaLibraryPaths h = Ok l.
Proof.
  unfold getLinuxCudaLibraryPaths.
  destruct (getCudaInstallationPaths h Linux); eauto.
Qed.

Lemma detectCudaSupport_ok (platform : BinaryPlatform) :
  exists c, detectCudaSupport h platform = Ok c.
Proof.
  destruct platform; simpl; eauto.
  - destruct (getCudaInstallationPaths_ok Win) as [l Hl].
    simpl in Hl; rewrite Hl; simpl; eauto.
  - destruct getLinuxCudaLibraryPaths_ok as [l ->]; simpl; eauto.
Qed.

Lemma detectVulkanSupport_ok (platform : BinaryPlatform) :
  exists v, detectVulkanSupport h platform = Ok v.
Proof. destruct platform; simpl; eauto. Qed.

(** A failing enumeration command is caught. *)
Lemma getArcGpuDeviceNames_ok (platform : BinaryPlatform) :
  exists l, getArcGpuDeviceNames h platform = Ok l.
Proof. apply try_catch_ok; eauto. Qed.

Lemma detectSyclSupport_ok (platform : BinaryPlatform) :
  exists s, detectSyclSupport h platform = Ok s.
Proof.
  unfold detectSyclSupport.
  destruct (getArcGpuDeviceNames_ok platform) as [l ->]; simpl; eauto.
Qed.






(** A class check is the disjunction over file names and directories. *)
Lemma someFileInPath_iff (names : list string) (paths : list (option string)) :
  someFileInPath h names paths = true <-> Spec.libraryClassFound h names paths.
Proof.
  unfold someFileInPath, asyncSome, Spec.libraryClassFound, hasFileInPath.
  rewrite existsb_exists; split.
  - intros (b & Hin & Hb); subst b.
    apply in_map_iff in Hin as (n & Hn & Hin).
    apply existsb_exists in Hn as (d & Hd & He).
    exists n, d; auto.
  - intros (n & d & Hn & Hd & He).
    exists true; split; auto.
    apply in_map_iff; exists n; split; auto.
    apply existsb_exists; eauto.
Qed.

End WithHost.

(** The map is made of the results of the four probes, none of which
    fails. *)
Lemma detect_ok (h : Host) (platform : BinaryPlatform) :
  exists m,
    detectAvailableComputeLayers h platform = Ok m
    /\ detectCudaSupport h platform = Ok (cuda m)
    /\ detectVulkanSupport h platform = Ok (vulkan m)
    /\ detectSyclSupport h platform = Ok (sycl m)
    /\ metal m = Spec.isMac platform.
Proof.
  destruct (detectCudaSupport_ok h platform) as [c Hc].
  destruct (detectVulkanSupport_ok h platform) as [v Hv].
  destruct (detectSyclSupport_ok h platform) as [s Hs].
  exists {| cuda := c; vulkan := v; metal := Spec.isMac platform; sycl := s |}.
  unfold detectAvailableComputeLayers, detectMetalSupport.
  rewrite Hc, Hv, Hs; simpl.
  repeat (split; [reflexivity|]). reflexivity.
Qed.




(** C9: hasCudaRuntime is the conjunction of the class checks, each of
    which is a disjunction over the accepted file names and the
    directories searched: it is true only if a CUDA runtime library, a
    cuBLAS library and a cuBLASLt library are each found (on Linux the
    code asks for libcuda as well); and it is true whenever all the
    classes asked for are found. *)
Theorem cuda_runtime_needs_every_class
        (h : Host) (platform : BinaryPlatform) (c : CudaSupport) :
  detectCudaSupport h platform = Ok c ->
  (hasCudaRuntime c = true <->
   exists paths,
     Spec.cudaSearchPaths h platform = Some paths
     /\ Spec.libraryClassFound h (Spec.cudaRuntimeNames platform) paths
     /\ Spec.libraryClassFound h (Spec.cublasNames platform) paths
     /\ Spec.libraryClassFound h (Spec.cublasLtNames platform) paths
     /\ (platform = Linux -> Spec.libraryClassFound h libcudaSos paths)).
Proof.
  destruct platform; simpl.
  - destruct (getCudaInstallationPaths_ok h Win) as [l Hl].
    simpl in Hl; rewrite Hl; simpl.
    intros H; inversion H; subst; clear H; simpl.
    unfold asyncEvery; simpl.
    rewrite !andb_true_iff, !someFileInPath_iff.
    split.
    + intros (H1 & H2 & H3 & _).
      eexists; split; [reflexivity|]. repeat split; auto. discriminate.
    + intros (paths & Hp & H1 & H2 & H3 & _).
      inversion Hp; subst. auto.
  - destruct (getLinuxCudaLibraryPaths_ok h) as [l Hl]; rewrite Hl; simpl.
    intros H; inversion H; subst; clear H; simpl.
    unfold asyncEvery; simpl.
    rewrite !andb_true_iff, !someFileInPath_iff.
    split.
    + intros (H0 & H1 & H2 & H3 & _).
      eexists; split; [reflexivity|]. repeat split; auto.
    + intros (paths & Hp & H1 & H2 & H3 & H0).
      inversion Hp; subst. repeat split; auto.
  - intros H; inversion H; subst; simpl. split; [discriminate|].
    intros (paths & Hp & _); discriminate.
  - intros H; inversion H; subst; simpl. split; [discriminate|].
    intros (paths & Hp & _); discriminate.
Qed.

(** On a Linux machine with CUDA under /usr/local/cuda-10 the runtime is
    detected, and so each class is found. *)
Lemma cuda_runtime_needs_every_class_witness :
  exists c,
    detectCudaSupport Examples.linuxCudaHost Linux = Ok c
    /\ hasCudaRuntime c = true
    /\ exists paths,
         Spec.cudaSearchPaths Examples.linuxCudaHost Linux = Some paths
         /\ Spec.libraryClassFound Examples.linuxCudaHost
                                   (Spec.cudaRuntimeNames Linux) paths.
Proof.
  eexists. split; [vm_compute; reflexivity|].
  split; [reflexivity|].
  assert (Hc : detectCudaSupport Examples.linuxCudaHost Linux
               = Ok {| hasNvidiaDriver := false; hasCudaRuntime := true |})
    by (vm_compute; reflexivity).
  destruct (proj1 (@cuda_runtime_needs_every_class Examples.linuxCudaHost Linux _ Hc)
                  eq_refl) as (paths & Hp & H1 & _).
  exists paths; split; assumption.
Defined.

(** C10: on every machine and platform the call returns the object with
    exactly the entries cuda, vulkan, metal and sycl; outside the Windows
    and Linux families its cuda entry has both fields false. *)
Theorem four_entries_and_no_cuda_elsewhere (h : Host) (platform : BinaryPlatform) :
  exists m,
    detectAvailableComputeLayers h platform = Ok m
    /\ keys m = ["cuda"; "vulkan"; "metal"; "sycl"]%string
    /\ (platform <> Win -> platform <> Linux ->
        cuda m = {| hasNvidiaDriver := false; hasCudaRuntime := false |}).
Proof.
  destruct (detect_ok h platform) as (m & Hm & Hc & _).
  exists m; split; [exact Hm|]. split; [reflexivity|].
  intros HW HL.
  destruct platform; try congruence; simpl in Hc; now inversion Hc.
Qed.

Lemma four_entries_and_no_cuda_elsewhere_witness :
  exists m,
    detectAvailableComputeLayers Examples.linuxCudaHost Mac = Ok m
    /\ cuda m = {| hasNvidiaDriver := false; hasCudaRuntime := false |}.
Proof.
  destruct (@four_entries_and_no_cuda_elsewhere Examples.linuxCudaHost Mac)
    as (m & Hm & _ & Hc).
  exists m; split; [exact Hm|].
  apply Hc; discriminate.
Defined.

End DetectorFacts.

(* ===================================================================== *)
(** * Properties of the Supervisor                                        *)
(* ===================================================================== *)

Module SupervisorFacts.
Import Protocol Supervisor.

(** Runs the combinators of [Step] and splits on every test met. *)
Ltac step_unfold :=
  cbv [handle handleAll onMessage exitListener timeoutCallback onExit done
       cleanup killProcess pipeMessages settleTestPromise settleTimeoutPromise
       createTestProcess startTest
       seq skip act update when ifElse orElse isPending isNull
       set_testPassed set_forkSucceeded set_timerPending
       set_subProcessAssigned set_testFinished set_promises set_exit
       set_exited set_pidKnown set_pipeSet
       testPassed forkSucceeded timerPending subProcessAssigned testFinished
       timeoutPromise testPromise racePromise handleExitCode pidKnown exited
       pipeSet fst snd app negb orb andb orMinusOne] in *.

Ltac split_tests :=
  repeat match goal with
         | |- context [if ?b then _ else _] => destruct b eqn:?
         | |- context [match ?x with Some _ => _ | None => _ end] => destruct x eqn:?
         | H : context [if ?b then _ else _] |- _ => destruct b eqn:?
         | H : context [match ?x with Some _ => _ | None => _ end] |- _ =>
             destruct x eqn:?
         end.

Ltac run_step := step_unfold; split_tests; step_unfold;
                 try discriminate; try congruence; auto.

Section WithRequest.
Variable req : Request.
Variable forkType : ForkType.

Lemma handleAll_cons (e : Event) (evs : list Event) (s : State) :
  handleAll req forkType (e :: evs) s
  = let '(s1, o1) := handle req forkType e s in
    let '(s2, o2) := handleAll req forkType evs s1 in
    (s2, o1 ++ o2).
Proof. reflexivity. Qed.

Lemma handleAll_app (a b : list Event) (s : State) :
  handleAll req forkType (a ++ b) s
  = let '(s1, o1) := handleAll req forkType a s in
    let '(s2, o2) := handleAll req forkType b s1 in
    (s2, o1 ++ o2).
Proof.
  revert s; induction a as [|e a IH]; intros s.
  - simpl. unfold skip. destruct (handleAll req forkType b s); reflexivity.
  - rewrite <- app_comm_cons, !handleAll_cons.
    destruct (handle req forkType e s) as [s1 o1].
    rewrite IH.
    destruct (handleAll req forkType a s1) as [s2 o2].
    destruct (handleAll req forkType b s2) as [s3 o3].
    now rewrite app_assoc.
Qed.

(** A settled race stays as it is. *)
Lemma handle_race_stable (e : Event) (s : State) (o : Outcome) :
  racePromise s = Some o ->
  racePromise (fst (handle req forkType e s)) = Some o.
Proof.
  destruct s; intros H; simpl in H; subst.
  destruct e as [[]|code| |]; destruct forkType; run_step.
Qed.

Lemma handleAll_race_stable (evs : list Event) (s : State) (o : Outcome) :
  racePromise s = Some o ->
  racePromise (fst (handleAll req forkType evs s)) = Some o.
Proof.
  revert s; induction evs as [|e evs IH]; intros s H; [exact H|].
  rewrite handleAll_cons.
  pose proof (handle_race_stable e s H) as H1.
  destruct (handle req forkType e s) as [s1 o1]; simpl in H1.
  specialize (IH s1 H1).
  destruct (handleAll req forkType evs s1); exact IH.
Qed.

(** What is sent in reply to one event. *)
Lemma handle_sent (e : Event) (s : State) :
  sentMessages (snd (handle req forkType e s)) = Spec.reply req e.
Proof.
  destruct s.
  destruct e as [[]|code| |]; destruct forkType; run_step.
Qed.

Lemma sentMessages_app (a b : list Action) :
  sentMessages (a ++ b) = sentMessages a ++ sentMessages b.
Proof. unfold sentMessages; apply flat_map_app. Qed.

Lemma handleAll_sent (evs : list Event) (s : State) :
  sentMessages (snd (handleAll req forkType evs s))
  = flat_map (Spec.reply req) evs.
Proof.
  revert s; induction evs as [|e evs IH]; intros s; [reflexivity|].
  rewrite handleAll_cons.
  pose proof (handle_sent e s) as H1.
  destruct (handle req forkType e s) as [s1 o1]; simpl in H1.
  specialize (IH s1).
  destruct (handleAll req forkType evs s1) as [s2 o2]; simpl in *.
  now rewrite sentMessages_app, H1, IH.
Qed.

(** A message during the handshake: nothing is settled or killed. *)
Lemma message_keeps_awaiting (m : ChildToParentMessage) (s : State) :
  Spec.awaiting s ->
  Spec.awaiting (fst (handle req forkType (OnMessage m) s))
  /\ forkSucceeded (fst (handle req forkType (OnMessage m) s))
     = forkSucceeded s || isMessage Ready (OnMessage m)
  /\ testPassed (fst (handle req forkType (OnMessage m) s))
     = testPassed s || isMessage Done (OnMessage m)
  /\ existsb isKill (snd (handle req forkType (OnMessage m) s)) = false.
Proof.
  unfold Spec.awaiting. destruct s; simpl.
  intros (? & ? & ? & ? & ? & ? & ? & ?); subst.
  destruct m; destruct forkType; run_step;
    repeat split; auto using orb_true_r, orb_false_r;
    try (symmetry; apply orb_false_r); try (symmetry; apply orb_true_r).
Qed.


Lemma spawn_keeps_awaiting (s : State) :
  Spec.awaiting s ->
  Spec.awaiting (fst (handle req forkType OnSpawn s))
  /\ forkSucceeded (fst (handle req forkType OnSpawn s)) = forkSucceeded s
  /\ testPassed (fst (handle req forkType OnSpawn s)) = testPassed s
  /\ snd (handle req forkType OnSpawn s) = [].
Proof.
  unfold Spec.awaiting. destruct s; simpl.
  intros (? & ? & ? & ? & ? & ? & ? & ?); subst.
  destruct forkType; run_step; repeat split; auto.
Qed.

Lemma messages_keep_awaiting (pre : list Event) (s : State) :
  Spec.awaiting s -> Spec.noExitIn pre -> Spec.noTimeoutIn pre ->
  Spec.awaiting (fst (handleAll req forkType pre s))
  /\ forkSucceeded (fst (handleAll req forkType pre s))
     = forkSucceeded s || Spec.received Ready pre
  /\ testPassed (fst (handleAll req forkType pre s))
     = testPassed s || Spec.received Done pre
  /\ existsb isKill (snd (handleAll req forkType pre s)) = false.
Proof.
  unfold Spec.noExitIn, Spec.noTimeoutIn, Spec.received.
  revert s; induction pre as [|e pre IH]; intros s Hs Hx Ht.
  - simpl. rewrite !orb_false_r. auto.
  - destruct e as [m|code| |]; simpl in Hx, Ht; try discriminate.
    + rewrite handleAll_cons.
      destruct (message_keeps_awaiting m Hs) as (Hs1 & Hf & Hp & Hk).
      destruct (handle req forkType (OnMessage m) s) as [s1 o1]; simpl in *.
      destruct (IH s1 Hs1 Hx Ht) as (Hs2 & Hf2 & Hp2 & Hk2).
      destruct (handleAll req forkType pre s1) as [s2 o2]; simpl in *.
      split; [exact Hs2|].
      rewrite Hf2, Hp2, Hf, Hp, existsb_app, Hk, Hk2, !orb_assoc.
      auto.
    + rewrite handleAll_cons.
      destruct (spawn_keeps_awaiting Hs) as (Hs1 & Hf & Hp & Hk).
      destruct (handle req forkType OnSpawn s) as [s1 o1]; simpl in *.
      destruct (IH s1 Hs1 Hx Ht) as (Hs2 & Hf2 & Hp2 & Hk2).
      destruct (handleAll req forkType pre s1) as [s2 o2]; simpl in *.
      split; [exact Hs2|].
      rewrite Hf2, Hp2, Hf, Hp, Hk. simpl. auto.
Qed.

(** The deadline elapses during the handshake. *)
Lemma timeout_while_awaiting (s : State) :
  Spec.awaiting s ->
  racePromise (fst (handle req forkType OnTimeout s))
    = Some (Rejected TimedOutError)
  /\ existsb isKill (snd (handle req forkType OnTimeout s)) = true.
Proof.
  unfold Spec.awaiting. destruct s; simpl.
  intros (? & ? & ? & ? & ? & ? & ? & ?); subst.
  destruct forkType; run_step.
Qed.

(** The child exits during the handshake. *)
Lemma exit_while_awaiting (code : option Z) (s : State) :
  Spec.awaiting s ->
  racePromise (fst (handle req forkType (OnExit code) s))
    = Some (Spec.exitOutcome (forkSucceeded s) (testPassed s) code).
Proof.
  unfold Spec.awaiting, Spec.exitOutcome. destruct s; simpl.
  intros (? & ? & ? & ? & ? & ? & ? & ?); subst.
  destruct code as [c|]; destruct forkType; step_unfold;
    change (isNonZero None) with true;
    change (isNonZero (Some (-1)%Z)) with true;
    try destruct (isNonZero (Some c)) eqn:Hnz;
    run_step; rewrite ?andb_true_r, ?andb_false_r; auto.
Qed.

(** One event while the test promise is pending. *)
Lemma message_while_pending (m : ChildToParentMessage) (s : State) :
  racePromise s = None -> testPromise s = None ->
  racePromise (fst (handle req forkType (OnMessage m) s)) = None
  /\ testPromise (fst (handle req forkType (OnMessage m) s)) = None
  /\ forkSucceeded (fst (handle req forkType (OnMessage m) s))
     = forkSucceeded s || isMessage Ready (OnMessage m)
  /\ testPassed (fst (handle req forkType (OnMessage m) s))
     = testPassed s || isMessage Done (OnMessage m).
Proof.
  destruct s; simpl; intros; subst.
  destruct m; destruct forkType; run_step;
    repeat split; auto using orb_true_r, orb_false_r;
    try (symmetry; apply orb_false_r); try (symmetry; apply orb_true_r).
Qed.

Lemma timeout_while_pending (s : State) :
  racePromise s = None -> testPromise s = None ->
  (racePromise (fst (handle req forkType OnTimeout s)) = None
   \/ exists e, racePromise (fst (handle req forkType OnTimeout s))
                = Some (Rejected e))
  /\ testPromise (fst (handle req forkType OnTimeout s)) = None
  /\ forkSucceeded (fst (handle req forkType OnTimeout s)) = forkSucceeded s
  /\ testPassed (fst (handle req forkType OnTimeout s)) = testPassed s.
Proof.
  destruct s; simpl; intros; subst.
  destruct forkType; run_step; repeat split; eauto.
Qed.

Lemma spawn_while_pending (s : State) :
  racePromise s = None -> testPromise s = None ->
  racePromise (fst (handle req forkType OnSpawn s)) = None
  /\ testPromise (fst (handle req forkType OnSpawn s)) = None
  /\ forkSucceeded (fst (handle req forkType OnSpawn s)) = forkSucceeded s
  /\ testPassed (fst (handle req forkType OnSpawn s)) = testPassed s.
Proof.
  destruct s; simpl; intros; subst.
  destruct forkType; run_step; repeat split; auto.
Qed.

Lemma exit_while_pending (code : option Z) (s : State) :
  racePromise s = None -> testPromise s = None ->
  racePromise (fst (handle req forkType (OnExit code) s))
    = Some (Spec.exitOutcome (forkSucceeded s) (testPassed s) code).
Proof.
  unfold Spec.exitOutcome. destruct s; simpl; intros; subst.
  destruct code as [c|]; destruct forkType; step_unfold;
    change (isNonZero None) with true;
    change (isNonZero (Some (-1)%Z)) with true;
    try destruct (isNonZero (Some c)) eqn:Hnz;
    run_step; rewrite ?andb_true_r, ?andb_false_r; auto.
Qed.

Lemma isNonZero_false (code : option Z) :
  isNonZero code = false <-> code = Some 0%Z.
Proof.
  destruct code as [c|]; simpl; [|split; discriminate].
  rewrite negb_false_iff, Z.eqb_eq. split; congruence.
Qed.

Lemma exitOutcome_true (ready done : bool) (code : option Z) :
  Spec.exitOutcome ready done code = Resolved true ->
  ready = true /\ done = true /\ code = Some 0%Z.
Proof.
  unfold Spec.exitOutcome. destruct ready; [|discriminate].
  intros H; injection H as H1.
  apply andb_true_iff in H1 as [Hd Hc].
  apply negb_true_iff in Hc. apply isNonZero_false in Hc. auto.
Qed.

(** The test promise is never settled ahead of the race, and an exit
    of the child settles the race if nothing did before. *)
Lemma handle_settles (e : Event) (s : State) :
  (racePromise s = None -> testPromise s = None) ->
  (racePromise (fst (handle req forkType e s)) = None ->
   testPromise (fst (handle req forkType e s)) = None)
  /\ (isExitEvent e = true ->
      racePromise (fst (handle req forkType e s)) <> None).
Proof.
  destruct s as [tp fs tm sa tf p1 p2 p3 hc es ex ps]; simpl.
  destruct p3 as [o|]; intros H.
  - pose proof (@handle_race_stable e
                  {| testPassed := tp; forkSucceeded := fs; timerPending := tm;
                     subProcessAssigned := sa; testFinished := tf;
                     timeoutPromise := p1; testPromise := p2;
                     racePromise := Some o; handleExitCode := hc;
                     pidKnown := es; exited := ex; pipeSet := ps |}
                  o eq_refl) as Hst.
    rewrite Hst. split; intros; discriminate.
  - rewrite (H eq_refl).
    destruct e as [[]|code| |]; destruct forkType; run_step;
      split; intros; try discriminate; auto.
Qed.

Lemma handleAll_settles (evs : list Event) (s : State) :
  (racePromise s = None -> testPromise s = None) ->
  existsb isExitEvent evs = true ->
  racePromise (fst (handleAll req forkType evs s)) <> None.
Proof.
  revert s; induction evs as [|e evs IH]; intros s Hinv Hex;
    [discriminate|].
  rewrite handleAll_cons.
  destruct (handle_settles e s Hinv) as [Hinv1 Hset].
  simpl in Hex.
  destruct (isExitEvent e) eqn:He.
  - specialize (Hset eq_refl).
    destruct (racePromise (fst (handle req forkType e s))) as [o|] eqn:Hr;
      [|congruence].
    pose proof (handleAll_race_stable evs _ Hr) as Hst.
    destruct (handle req forkType e s) as [s1 o1]; simpl in *.
    destruct (handleAll req forkType evs s1) as [s2 o2]; simpl in *.
    congruence.
  - simpl in Hex. specialize (IH _ Hinv1 Hex).
    destruct (handle req forkType e s) as [s1 o1]; simpl in *.
    destruct (handleAll req forkType evs s1) as [s2 o2]; simpl in *.
    exact IH.
Qed.

(** If the race ends with [true], the first exit of the child had
    code 0 and came after "ready" and "done". *)
Lemma resolved_true_inversion (evs : list Event) (s : State) :
  racePromise s = None -> testPromise s = None ->
  racePromise (fst (handleAll req forkType evs s)) = Some (Resolved true) ->
  exists pre post,
    evs = pre ++ OnExit (Some 0%Z) :: post
    /\ Spec.noExitIn pre
    /\ forkSucceeded s || Spec.received Ready pre = true
    /\ testPassed s || Spec.received Done pre = true.
Proof.
  unfold Spec.noExitIn, Spec.received.
  revert s; induction evs as [|e evs IH]; intros s Hr Ht Hfin.
  - simpl in Hfin; congruence.
  - rewrite handleAll_cons in Hfin.
    destruct e as [m|code| |].
    + destruct (message_while_pending m s Hr Ht) as (Hr1 & Ht1 & Hf1 & Hp1).
      destruct (handle req forkType (OnMessage m) s) as [s1 o1]; simpl in *.
      specialize (IH s1 Hr1 Ht1).
      destruct (handleAll req forkType evs s1) as [s2 o2]; simpl in *.
      destruct (IH Hfin) as (pre & post & -> & Hx & Hf & Hp).
      exists (OnMessage m :: pre), post. simpl.
      rewrite Hf1, <- orb_assoc in Hf. rewrite Hp1, <- orb_assoc in Hp.
      auto.
    + pose proof (exit_while_pending code s Hr Ht) as Hx.
      pose proof (handleAll_race_stable evs
                    (fst (handle req forkType (OnExit code) s)) Hx) as Hst.
      destruct (handle req forkType (OnExit code) s) as [s1 o1]; simpl in *.
      destruct (handleAll req forkType evs s1) as [s2 o2]; simpl in *.
      rewrite Hfin in Hst. inversion Hst as [Ho]. symmetry in Ho.
      apply exitOutcome_true in Ho as (Hf & Hp & ->).
      exists [], evs. simpl. rewrite Hf, Hp. auto.
    + destruct (timeout_while_pending s Hr Ht) as (Hr1 & Ht1 & Hf1 & Hp1).
      destruct Hr1 as [Hr1|[err Hr1]].
      * destruct (handle req forkType OnTimeout s) as [s1 o1]; simpl in *.
        specialize (IH s1 Hr1 Ht1).
        destruct (handleAll req forkType evs s1) as [s2 o2]; simpl in *.
        destruct (IH Hfin) as (pre & post & -> & Hx & Hf & Hp).
        exists (OnTimeout :: pre), post. simpl.
        rewrite Hf1 in Hf. rewrite Hp1 in Hp. auto.
      * pose proof (handleAll_race_stable evs
                      (fst (handle req forkType OnTimeout s)) Hr1) as Hst.
        destruct (handle req forkType OnTimeout s) as [s1 o1]; simpl in *.
        destruct (handleAll req forkType evs s1) as [s2 o2]; simpl in *.
        congruence.
    + destruct (spawn_while_pending s Hr Ht) as (Hr1 & Ht1 & Hf1 & Hp1).
      destruct (handle req forkType OnSpawn s) as [s1 o1]; simpl in *.
      specialize (IH s1 Hr1 Ht1).
      destruct (handleAll req forkType evs s1) as [s2 o2]; simpl in *.
      destruct (IH Hfin) as (pre & post & -> & Hx & Hf & Hp).
      exists (OnSpawn :: pre), post. simpl.
      rewrite Hf1 in Hf. rewrite Hp1 in Hp. auto.
Qed.

(** The state right after the fork. *)
Lemma startTest_alive (rt : Runtime) :
  Spec.spawnedAlive rt ->
  exists s0,
    startTest forkType rt initialState = (s0, [Fork forkType])
    /\ Spec.awaiting s0
    /\ forkSucceeded s0 = false /\ testPassed s0 = false.
Proof.
  intros [Hk Hc]. unfold Spec.awaiting.
  destruct forkType; unfold initialState; step_unfold;
    rewrite ?Hk, ?Hc; simpl; eexists; split; try reflexivity;
    simpl; repeat split; auto.
Qed.

Lemma startTest_cases (rt : Runtime) :
  let s0 := fst (startTest forkType rt initialState) in
  sentMessages (snd (startTest forkType rt initialState)) = []
  /\ forkSucceeded s0 = false /\ testPassed s0 = false
  /\ ((racePromise s0 = None /\ testPromise s0 = None)
      \/ exists e, racePromise s0 = Some (Rejected e)).
Proof.
  destruct forkType; unfold initialState; run_step;
    simpl; repeat split; eauto.
Qed.

End WithRequest.

(** Once the guards are passed, the call is the fork followed by the
    handling of the events. *)
Lemma testBindingBinary_forked (rt : Runtime) (req : Request) (evs : list Event) :
  Spec.reachesFork rt ->
  testBindingBinary rt req evs
  = let '(forkType, log) := getForkFunction rt in
    let '(s, acts) :=
      (startTest forkType rt ;; handleAll req forkType evs) initialState in
    {| outcome := racePromise s; actions := log ++ acts; final := Some s |}.
Proof.
  intros [Hn Hs]. unfold testBindingBinary. rewrite Hn, Hs. reflexivity.
Qed.

Lemma testBindingBinary_fork_only_past_guards
      (rt : Runtime) (req : Request) (evs : list Event) :
  existsb isFork (actions (testBindingBinary rt req evs)) = true ->
  Spec.reachesFork rt.
Proof.
  unfold testBindingBinary, Spec.reachesFork.
  destruct (JsString.startsWith _ _); simpl; [|discriminate].
  destruct (nodeSeaDetected rt); simpl; [discriminate|auto].
Qed.

Lemma getForkFunction_log (rt : Runtime) :
  sentMessages (snd (getForkFunction rt)) = []
  /\ existsb isKill (snd (getForkFunction rt)) = false.
Proof.
  unfold getForkFunction.
  destruct (runningInElectron rt), (electronImports rt); simpl; auto.
Qed.

Lemma run_sent (rt : Runtime) (req : Request) (evs : list Event) :
  sentMessages (actions (testBindingBinary rt req evs)) = []
  \/ sentMessages (actions (testBindingBinary rt req evs))
     = flat_map (Spec.reply req) evs.
Proof.
  unfold testBindingBinary.
  destruct (JsString.startsWith _ _); simpl; [|auto].
  destruct (nodeSeaDetected rt); simpl; [auto|].
  right.
  destruct (getForkFunction_log rt) as [Hl _].
  destruct (getForkFunction rt) as [forkType log]; simpl in Hl.
  unfold seq.
  destruct (startTest_cases forkType rt) as (Hs & _).
  destruct (startTest forkType rt initialState) as [s0 o0]; simpl in Hs.
  pose proof (handleAll_sent req forkType evs s0) as Hh.
  destruct (handleAll req forkType evs s0) as [s1 o1]; simpl in *.
  now rewrite !sentMessages_app, Hl, Hs, Hh.
Qed.

Lemma received_iff (m : ChildToParentMessage) (evs : list Event) :
  Spec.received m evs = true <-> In (OnMessage m) evs.
Proof.
  unfold Spec.received. rewrite existsb_exists. split.
  - intros (e & Hin & He).
    destruct e as [[]| | |], m; simpl in He; try discriminate; exact Hin.
  - intros Hin. exists (OnMessage m). split; [exact Hin|].
    destruct m; reflexivity.
Qed.

(** C5: whatever the child sends and whenever it exits, the Supervisor
    has sent "test" only if it has received "loaded", "exit" only if it
    has received "done", and "start" only if it has received "ready".
    The statement holds after every sequence of events, hence at every
    moment of a run. *)
Theorem sends_only_after_precondition
        (rt : Runtime) (req : Request) (evs : list Event) :
  let sent := sentMessages (actions (testBindingBinary rt req evs)) in
  (forall p g, In (Test p g) sent -> In (OnMessage Loaded) evs)
  /\ (In Exit sent -> In (OnMessage Done) evs)
  /\ (forall p g, In (Start p g) sent -> In (OnMessage Ready) evs).
Proof.
  intros sent; subst sent.
  destruct (run_sent rt req evs) as [-> | ->].
  - simpl; repeat split; intros; contradiction.
  - repeat split; intros; match goal with
      | H : In _ (flat_map _ _) |- _ =>
          apply in_flat_map in H as (e & Hin & He);
          destruct e as [[]| | |]; simpl in He; intuition congruence
      end.
Qed.

Lemma sends_only_after_precondition_witness :
  In (Test (bindingBinaryPath Examples.cudaRequest) (gpu Examples.cudaRequest))
     (sentMessages (actions (testBindingBinary Examples.nodeRuntime
                               Examples.cudaRequest
                               [OnMessage Ready; OnMessage Loaded])))
  /\ In (OnMessage Loaded) [OnMessage Ready; OnMessage Loaded].
Proof.
  assert (H : In (Test (bindingBinaryPath Examples.cudaRequest)
                       (gpu Examples.cudaRequest))
                 (sentMessages (actions (testBindingBinary Examples.nodeRuntime
                                           Examples.cudaRequest
                                           [OnMessage Ready; OnMessage Loaded])))).
  { simpl. right. left. reflexivity. }
  split; [exact H|].
  exact (proj1 (@sends_only_after_precondition Examples.nodeRuntime
                  Examples.cudaRequest [OnMessage Ready; OnMessage Loaded])
               _ _ H).
Defined.

(** C6: when the name of the module file does not start with
    "testBindingBinary", the call logs the warning and returns [true]
    without forking a child, whatever the request. *)
Theorem not_independent_passes_without_fork
        (rt : Runtime) (req : Request) (evs : list Event) :
  JsString.startsWith (detectedFileName rt) expectedFileName = false ->
  testBindingBinary rt req evs
  = {| outcome := Some (Resolved true);
       actions := [Console WarnNotIndependent];
       final := None |}
  /\ existsb isFork (actions (testBindingBinary rt req evs)) = false
  /\ existsb isConsoleWarning (actions (testBindingBinary rt req evs)) = true.
Proof.
  intros H. unfold testBindingBinary. rewrite H. simpl. auto.
Qed.

Lemma not_independent_passes_without_fork_witness :
  JsString.startsWith (detectedFileName Examples.bundledRuntime)
                      expectedFileName = false
  /\ outcome (testBindingBinary Examples.bundledRuntime Examples.cudaRequest [])
     = Some (Resolved true).
Proof.
  split; [reflexivity|].
  rewrite (proj1 (@not_independent_passes_without_fork
                    Examples.bundledRuntime Examples.cudaRequest []
                    eq_refl)).
  reflexivity.
Defined.

(** The run up to the first exit or timeout. *)
Lemma run_until (rt : Runtime) (req : Request) (pre : list Event) :
  Spec.reachesFork rt -> Spec.spawnedAlive rt ->
  Spec.noExitIn pre -> Spec.noTimeoutIn pre ->
  exists forkType log s acts,
    getForkFunction rt = (forkType, log)
    /\ (startTest forkType rt ;; handleAll req forkType pre) initialState
       = (s, Fork forkType :: acts)
    /\ Spec.awaiting s
    /\ forkSucceeded s = Spec.received Ready pre
    /\ testPassed s = Spec.received Done pre
    /\ existsb isKill acts = false.
Proof.
  intros Hf Ha Hx Ht.
  destruct (getForkFunction rt) as [forkType log] eqn:Hg.
  destruct (startTest_alive forkType Ha) as (s0 & Hs0 & Haw & Hfk & Hps).
  destruct (messages_keep_awaiting req forkType Haw Hx Ht) as (Haw1 & Hf1 & Hp1 & Hk1).
  destruct (handleAll req forkType pre s0) as [s1 o1] eqn:Hh; simpl in *.
  exists forkType, log, s1, o1.
  split; [reflexivity|].
  split; [unfold seq; rewrite Hs0, Hh; reflexivity|].
  rewrite Hf1, Hp1, Hfk, Hps. simpl. auto.
Qed.

Lemma seq_handleAll_app (rt : Runtime) (req : Request) (forkType : ForkType)
      (pre post : list Event) (e : Event) :
  (startTest forkType rt ;; handleAll req forkType (pre ++ e :: post)) initialState
  = let '(s, acts) :=
      (startTest forkType rt ;; handleAll req forkType pre) initialState in
    let '(s1, o1) := handle req forkType e s in
    let '(s2, o2) := handleAll req forkType post s1 in
    (s2, acts ++ o1 ++ o2).
Proof.
  unfold seq.
  destruct (startTest forkType rt initialState) as [s0 o0].
  rewrite handleAll_app.
  destruct (handleAll req forkType pre s0) as [s1 o1].
  rewrite handleAll_cons.
  destruct (handle req forkType e s1) as [s2 o2].
  destruct (handleAll req forkType post s2) as [s3 o3].
  now rewrite app_assoc.
Qed.

(** The deadline elapses before the child exits. *)
Lemma outcome_on_first_timeout
      (rt : Runtime) (req : Request) (pre post : list Event) :
  Spec.reachesFork rt -> Spec.spawnedAlive rt ->
  Spec.noExitIn pre -> Spec.noTimeoutIn pre ->
  outcome (testBindingBinary rt req (pre ++ OnTimeout :: post))
    = Some (Rejected TimedOutError)
  /\ existsb isKill (actions (testBindingBinary rt req (pre ++ OnTimeout :: post)))
     = true.
Proof.
  intros Hf Ha Hx Ht.
  destruct (run_until req Hf Ha Hx Ht)
    as (forkType & log & s & acts & Hg & Hrun & Haw & Hfs & Hps & Hk).
  rewrite (testBindingBinary_forked req (pre ++ OnTimeout :: post) Hf), Hg.
  rewrite seq_handleAll_app, Hrun.
  destruct (timeout_while_awaiting req forkType Haw) as [Hr Hkill].
  pose proof (handleAll_race_stable req forkType post
                (fst (handle req forkType OnTimeout s)) Hr) as Hst.
  destruct (handle req forkType OnTimeout s) as [s1 o1]; simpl in *.
  destruct (handleAll req forkType post s1) as [s2 o2]; simpl in *.
  split; [exact Hst|].
  rewrite !existsb_app. simpl. rewrite !existsb_app, Hkill.
  simpl. now rewrite !orb_true_r.
Qed.

(** The child exits before the deadline elapses. *)
Lemma outcome_on_first_exit
      (rt : Runtime) (req : Request) (pre post : list Event) (code : option Z) :
  Spec.reachesFork rt -> Spec.spawnedAlive rt ->
  Spec.noExitIn pre -> Spec.noTimeoutIn pre ->
  outcome (testBindingBinary rt req (pre ++ OnExit code :: post))
  = Some (Spec.exitOutcome (Spec.received Ready pre)
                           (Spec.received Done pre) code).
Proof.
  intros Hf Ha Hx Ht.
  destruct (run_until req Hf Ha Hx Ht)
    as (forkType & log & s & acts & Hg & Hrun & Haw & Hfs & Hps & Hk).
  rewrite (testBindingBinary_forked req (pre ++ OnExit code :: post) Hf), Hg.
  rewrite seq_handleAll_app, Hrun.
  pose proof (exit_while_awaiting req forkType code Haw) as Hr.
  pose proof (handleAll_race_stable req forkType post
                (fst (handle req forkType (OnExit code) s)) Hr) as Hst.
  destruct (handle req forkType (OnExit code) s) as [s1 o1]; simpl in *.
  destruct (handleAll req forkType post s1) as [s2 o2]; simpl in *.
  now rewrite Hst, Hfs, Hps.
Qed.

(** C3 (amended): once the child is forked and alive, the call settles
    as follows.  If the deadline elapses before the child exits, in
    particular when the Worker never sends any message, the promise
    is rejected with the timed-out error, so the call throws, and the
    child has been killed and is not running afterwards.  If the child
    exits first, the promise is rejected with the failed-to-run error
    when "ready" was never received (spawn failure), and otherwise
    resolves to a boolean: [true] for exit code 0 after "done",
    [false] in every other case (load failure, mismatch). *)
Theorem timeout_rejects_and_kills
        (rt : Runtime) (req : Request) (pre post : list Event) :
  Spec.reachesFork rt -> Spec.spawnedAlive rt ->
  Spec.noExitIn pre -> Spec.noTimeoutIn pre ->
  (outcome (testBindingBinary rt req (pre ++ OnTimeout :: post))
     = Some (Rejected TimedOutError)
   /\ existsb isKill (actions (testBindingBinary rt req (pre ++ OnTimeout :: post)))
      = true
   /\ childRunning (pre ++ OnTimeout :: post)
                   (testBindingBinary rt req (pre ++ OnTimeout :: post)) = false)
  /\ (forall code,
        outcome (testBindingBinary rt req (pre ++ OnExit code :: post))
        = Some (Spec.exitOutcome (Spec.received Ready pre)
                                 (Spec.received Done pre) code)).
Proof.
  intros Hf Ha Hx Ht.
  split.
  - destruct (outcome_on_first_timeout req post Hf Ha Hx Ht) as [Ho Hkl].
    split; [exact Ho|]. split; [exact Hkl|].
    unfold childRunning. rewrite Hkl. simpl. now rewrite andb_false_r.
  - intros code. apply outcome_on_first_exit; assumption.
Qed.

(** The end-to-end scenario of a Worker that never sends "ready". *)
Lemma timeout_rejects_and_kills_witness :
  Spec.reachesFork Examples.nodeRuntime
  /\ Spec.spawnedAlive Examples.nodeRuntime
  /\ outcome (testBindingBinary Examples.nodeRuntime Examples.cudaRequest
                                [OnTimeout; OnExit None])
     = Some (Rejected TimedOutError)
  /\ childRunning [OnTimeout; OnExit None]
                  (testBindingBinary Examples.nodeRuntime Examples.cudaRequest
                                     [OnTimeout; OnExit None]) = false.
Proof.
  assert (Hf : Spec.reachesFork Examples.nodeRuntime) by (split; reflexivity).
  assert (Ha : Spec.spawnedAlive Examples.nodeRuntime) by (split; reflexivity).
  destruct (@timeout_rejects_and_kills Examples.nodeRuntime Examples.cudaRequest
              [] [OnExit None] Hf Ha eq_refl eq_refl) as [(Ho & _ & Hr) _].
  split; [exact Hf|]. split; [exact Ha|]. split; [exact Ho|exact Hr].
Defined.

(** C3 as stated fails: when the deadline elapses the promise is
    rejected, that is, the call throws. *)
Lemma timeout_makes_the_call_throw :
  ~ Spec.neverThrows
      (testBindingBinary Examples.nodeRuntime Examples.cudaRequest [OnTimeout]).
Proof.
  intros H. apply (H TimedOutError). reflexivity.
Qed.

(** Once the child has exited, the call is settled. *)
Lemma settled_after_exit (rt : Runtime) (req : Request) (evs : list Event) :
  Spec.reachesFork rt ->
  existsb isExitEvent evs = true ->
  exists o, outcome (testBindingBinary rt req evs) = Some o.
Proof.
  intros Hf Hex. rewrite (testBindingBinary_forked req evs Hf).
  destruct (getForkFunction rt) as [forkType log]. unfold seq.
  destruct (startTest_cases forkType rt) as (_ & _ & _ & Hcases).
  destruct (startTest forkType rt initialState) as [s0 o0]; simpl in *.
  assert (Hinv : racePromise s0 = None -> testPromise s0 = None).
  { destruct Hcases as [[_ Ht] | [e Hr]]; [auto | congruence]. }
  pose proof (@handleAll_settles req forkType evs s0 Hinv Hex) as Hs.
  destruct (handleAll req forkType evs s0) as [s1 o1]; simpl in *.
  destruct (racePromise s1) as [o|]; [eauto | congruence].
Qed.

Lemma exit_in_the_middle (pre post : list Event) (code : option Z) :
  existsb isExitEvent (pre ++ OnExit code :: post) = true.
Proof. rewrite existsb_app. simpl. apply orb_true_r. Qed.

(** A run that ends with [true]: the first exit has code 0 and follows
    "ready" and "done". *)
Lemma passed_inversion (rt : Runtime) (req : Request) (evs : list Event) :
  Spec.reachesFork rt ->
  outcome (testBindingBinary rt req evs) = Some (Resolved true) ->
  exists pre post,
    evs = pre ++ OnExit (Some 0%Z) :: post
    /\ Spec.noExitIn pre
    /\ In (OnMessage Ready) pre
    /\ In (OnMessage Done) pre.
Proof.
  intros Hf. rewrite (testBindingBinary_forked req evs Hf).
  destruct (getForkFunction rt) as [forkType log]. unfold seq.
  destruct (startTest_cases forkType rt) as (_ & Hfs & Hps & Hcases).
  destruct (startTest forkType rt initialState) as [s0 o0]; simpl in *.
  destruct Hcases as [[Hr Ht] | [e Hr]].
  - pose proof (@resolved_true_inversion req forkType evs s0 Hr Ht) as Hinv.
    destruct (handleAll req forkType evs s0) as [s1 o1]; simpl in *.
    intros Hout. destruct (Hinv Hout) as (pre & post & Hev & Hx & Hrd & Hdn).
    rewrite Hfs in Hrd. rewrite Hps in Hdn. simpl in Hrd, Hdn.
    exists pre, post. rewrite <- !received_iff. auto.
  - pose proof (handleAll_race_stable req forkType evs s0 Hr) as Hst.
    destruct (handleAll req forkType evs s0) as [s1 o1]; simpl in *.
    congruence.
Qed.

Lemma noExitIn_cons (e : Event) (l : list Event) :
  Spec.noExitIn (e :: l) <-> isExitEvent e = false /\ Spec.noExitIn l.
Proof. unfold Spec.noExitIn; simpl. apply orb_false_iff. Qed.

(** Two ways of cutting a trace at an exit, the first being its first
    exit. *)
Lemma first_exit_is_a_prefix (pre pre' post post' : list Event) (c c' : option Z) :
  pre ++ OnExit c :: post = pre' ++ OnExit c' :: post' ->
  Spec.noExitIn pre ->
  (pre = pre' /\ c = c') \/ exists k, pre' = pre ++ OnExit c :: k.
Proof.
  revert pre'; induction pre as [|a pre IH]; intros pre' Heq Hx.
  - destruct pre' as [|b pre']; simpl in Heq.
    + left. inversion Heq; auto.
    + right. inversion Heq; subst. exists pre'. reflexivity.
  - apply noExitIn_cons in Hx as [Ha Hx].
    destruct pre' as [|b pre']; simpl in Heq.
    + inversion Heq; subst. discriminate.
    + inversion Heq; subst.
      destruct (IH pre' H1 Hx) as [[-> ->] | [k ->]]; [left; auto|].
      right. exists k. reflexivity.
Qed.

Lemma exitCodes_app (a b : list Event) :
  Spec.exitCodes (a ++ b) = Spec.exitCodes a ++ Spec.exitCodes b.
Proof. unfold Spec.exitCodes; apply flat_map_app. Qed.

(** C4: once a child has been forked, the call resolves to [true] only
    if the child sent "done" (after "ready") before it exited and its
    exit, the only one of a process, had code 0.  When the child exits
    with code 0 before "done", the call is settled with a failure and
    not with [true]; so it is when the child exits with any other code,
    at whatever point of the handshake. *)
Theorem passed_only_after_done_and_clean_exit
        (rt : Runtime) (req : Request) (evs : list Event) :
  existsb isFork (actions (testBindingBinary rt req evs)) = true ->
  (outcome (testBindingBinary rt req evs) = Some (Resolved true) ->
   (exists pre post,
       evs = pre ++ OnExit (Some 0%Z) :: post
       /\ Spec.noExitIn pre
       /\ In (OnMessage Ready) pre
       /\ In (OnMessage Done) pre)
   /\ (Spec.exitsAtMostOnce evs ->
       Forall (fun c => c = Some 0%Z) (Spec.exitCodes evs)))
  /\ (forall pre post,
        evs = pre ++ OnExit (Some 0%Z) :: post ->
        ~ In (OnMessage Done) pre ->
        exists o, outcome (testBindingBinary rt req evs) = Some o
                  /\ o <> Resolved true)
  /\ (forall pre code post,
        evs = pre ++ OnExit code :: post ->
        Spec.noExitIn pre ->
        code <> Some 0%Z ->
        exists o, outcome (testBindingBinary rt req evs) = Some o
                  /\ o <> Resolved true).
Proof.
  intros Hfork.
  pose proof (testBindingBinary_fork_only_past_guards rt req evs Hfork) as Hf.
  split; [|split].
  - intros Hout.
    destruct (passed_inversion req evs Hf Hout)
      as (pre & post & Hev & Hx & Hrd & Hdn).
    split; [exists pre, post; auto|].
    unfold Spec.exitsAtMostOnce. rewrite Hev, exitCodes_app. simpl.
    rewrite length_app. simpl. intros Hlen.
    destruct (Spec.exitCodes pre) as [|c1 l1]; simpl in Hlen; [|lia].
    destruct (Spec.exitCodes post) as [|c2 l2]; simpl in Hlen; [|lia].
    simpl. repeat constructor.
  - intros pre post Hev Hnd.
    destruct (@settled_after_exit rt req evs Hf) as [o Ho].
    { rewrite Hev. apply exit_in_the_middle. }
    exists o. split; [exact Ho|]. intros ->.
    destruct (passed_inversion req evs Hf Ho)
      as (pre' & post' & Hev' & Hx' & Hrd' & Hdn').
    rewrite Hev' in Hev.
    destruct (@first_exit_is_a_prefix _ _ _ _ _ _ Hev Hx') as [[<- _] | [k ->]].
    + contradiction.
    + apply Hnd. apply in_or_app. left. exact Hdn'.
  - intros pre code post Hev Hx Hc.
    destruct (@settled_after_exit rt req evs Hf) as [o Ho].
    { rewrite Hev. apply exit_in_the_middle. }
    exists o. split; [exact Ho|]. intros ->.
    destruct (passed_inversion req evs Hf Ho)
      as (pre' & post' & Hev' & Hx' & Hrd' & Hdn').
    rewrite Hev' in Hev.
    destruct (@first_exit_is_a_prefix _ _ _ _ _ _ Hev Hx') as [[_ H0] | [k ->]].
    + congruence.
    + unfold Spec.noExitIn in Hx. rewrite existsb_app in Hx. simpl in Hx.
      rewrite orb_true_r in Hx. discriminate.
Qed.

(** The end-to-end scenarios: a full handshake passes; an exit with
    code 137 after "loaded" does not. *)
Lemma passed_only_after_done_and_clean_exit_witness :
  outcome (testBindingBinary Examples.nodeRuntime Examples.cudaRequest
             [OnMessage Ready; OnMessage Loaded; OnMessage Done; OnExit (Some 0%Z)])
    = Some (Resolved true)
  /\ Forall (fun c => c = Some 0%Z)
            (Spec.exitCodes [OnMessage Ready; OnMessage Loaded; OnMessage Done;
                             OnExit (Some 0%Z)])
  /\ exists o,
       outcome (testBindingBinary Examples.nodeRuntime Examples.cudaRequest
                  [OnMessage Ready; OnMessage Loaded; OnExit (Some 137%Z)])
       = Some o
       /\ o <> Resolved true.
Proof.
  split; [reflexivity|]. split.
  - apply (proj1 (@passed_only_after_done_and_clean_exit
                    Examples.nodeRuntime Examples.cudaRequest
                    [OnMessage Ready; OnMessage Loaded; OnMessage Done;
                     OnExit (Some 0%Z)] eq_refl) eq_refl).
    unfold Spec.exitsAtMostOnce. simpl. apply le_n.
  - apply (proj2 (proj2 (@passed_only_after_done_and_clean_exit
                    Examples.nodeRuntime Examples.cudaRequest
                    [OnMessage Ready; OnMessage Loaded; OnExit (Some 137%Z)]
                    eq_refl))
                 [OnMessage Ready; OnMessage Loaded] (Some 137%Z) []).
    + reflexivity.
    + reflexivity.
    + discriminate.
Defined.

End SupervisorFacts.

(* ===================================================================== *)
(** * Properties of the Worker and of whole sessions                      *)
(* ===================================================================== *)

Module WorkerFacts.
Import Protocol Worker.

Lemma needsReload_iff (loadedGpu : GpuType) (gpu : BuildGpu) :
  needsReload loadedGpu gpu = true <-> Spec.reprobeCondition loadedGpu gpu.
Proof.
  unfold Spec.reprobeCondition.
  destruct loadedGpu as [[|n]|]; destruct gpu; simpl; split;
    intros H; try discriminate; auto;
    try (right; split; [reflexivity | discriminate]);
    destruct H as [H|[H1 H2]]; try discriminate; try congruence.
Qed.

Section WithAddon.
Variable B : Type.
Variable addon : Addon B.

(** The calls logged by the "test" branch once the first
    [getGpuType()] has answered: the reload, if any, comes right after
    it, and nothing after that is a reload. *)
Lemma test_log (path : string) (gpu : BuildGpu) (s : State B)
      (b b1 b2 : B) (loadedGpu : GpuType) :
  binding s = Some b ->
  invoke addon (LoadBackends None) b = Some b1 ->
  getGpuType addon b1 = Some (b2, loadedGpu) ->
  exists rest,
    calls (after (onMessage addon (Test path gpu) s))
    = calls s ++ [LoadBackends None; GetGpuType]
              ++ (if needsReload loadedGpu gpu
                  then [LoadBackends (Some (binaryDirectory addon path))]
                  else [])
              ++ rest
    /\ existsb Spec.isReprobe rest = false.
Proof.
  intros Hb H1 H2.
  unfold onMessage. rewrite Hb.
  unfold testBody, loadAndInitialize, bind, call, callGetGpuType, ret, throw.
  rewrite H1, H2.
  destruct (needsReload loadedGpu gpu).
  - destruct (invoke addon (LoadBackends (Some _)) b2) as [b3|];
      [|exists []; simpl; rewrite <- !app_assoc; auto].
    destruct (invoke addon Init b3) as [b4|];
      [|exists [Init]; simpl; rewrite <- !app_assoc; auto].
    destruct (invoke addon GetGpuVramInfo b4) as [b5|];
      [|exists [Init; GetGpuVramInfo]; simpl; rewrite <- !app_assoc; auto].
    destruct (invoke addon GetGpuDeviceInfo b5) as [b6|];
      [|exists [Init; GetGpuVramInfo; GetGpuDeviceInfo]; simpl;
        rewrite <- !app_assoc; auto].
    destruct (getGpuType addon b6) as [[b7 g]|];
      [|exists [Init; GetGpuVramInfo; GetGpuDeviceInfo; GetGpuType]; simpl;
        rewrite <- !app_assoc; auto].
    destruct (negb (strictEquals g gpu));
      [exists [Init; GetGpuVramInfo; GetGpuDeviceInfo; GetGpuType]; simpl;
       rewrite <- !app_assoc; auto|].
    exists [Init; GetGpuVramInfo; GetGpuDeviceInfo; GetGpuType;
            EnsureGpuDeviceIsSupported].
    destruct (invoke addon EnsureGpuDeviceIsSupported b7);
      simpl; rewrite <- !app_assoc; auto.
  - destruct (invoke addon Init b2) as [b4|];
      [|exists [Init]; simpl; rewrite <- !app_assoc; auto].
    destruct (invoke addon GetGpuVramInfo b4) as [b5|];
      [|exists [Init; GetGpuVramInfo]; simpl; rewrite <- !app_assoc; auto].
    destruct (invoke addon GetGpuDeviceInfo b5) as [b6|];
      [|exists [Init; GetGpuVramInfo; GetGpuDeviceInfo]; simpl;
        rewrite <- !app_assoc; auto].
    destruct (getGpuType addon b6) as [[b7 g]|];
      [|exists [Init; GetGpuVramInfo; GetGpuDeviceInfo; GetGpuType]; simpl;
        rewrite <- !app_assoc; auto].
    destruct (negb (strictEquals g gpu));
      [exists [Init; GetGpuVramInfo; GetGpuDeviceInfo; GetGpuType]; simpl;
       rewrite <- !app_assoc; auto|].
    exists [Init; GetGpuVramInfo; GetGpuDeviceInfo; GetGpuType;
            EnsureGpuDeviceIsSupported].
    destruct (invoke addon EnsureGpuDeviceIsSupported b7);
      simpl; rewrite <- !app_assoc; auto.
Qed.

(** C7: in the "test" branch, once [loadBackends()] and the first
    [getGpuType()] have returned, the Worker calls [loadBackends]
    again, with the directory of the resolved binary path, exactly
    when the reported GPU type is null, or is [false] while the
    expected one is not [false]; the call then comes right after the
    first [getGpuType()], before the initialization. *)
Theorem reprobe_exactly_when_needed
        (path : string) (gpu : BuildGpu) (s : State B)
        (b b1 b2 : B) (loadedGpu : GpuType) :
  binding s = Some b ->
  existsb Spec.isReprobe (calls s) = false ->
  invoke addon (LoadBackends None) b = Some b1 ->
  getGpuType addon b1 = Some (b2, loadedGpu) ->
  (existsb Spec.isReprobe (calls (after (onMessage addon (Test path gpu) s)))
     = true
   <-> Spec.reprobeCondition loadedGpu gpu)
  /\ (Spec.reprobeCondition loadedGpu gpu ->
      exists rest,
        calls (after (onMessage addon (Test path gpu) s))
        = calls s ++ [LoadBackends None; GetGpuType;
                      LoadBackends (Some (binaryDirectory addon path))]
                  ++ rest).
Proof.
  intros Hb Hlog H1 H2.
  destruct (test_log path gpu s Hb H1 H2) as (rest & Hcalls & Hrest).
  rewrite Hcalls, <- needsReload_iff.
  rewrite !existsb_app, Hlog, Hrest. simpl.
  destruct (needsReload loadedGpu gpu); simpl; split.
  - split; auto.
  - intros _. exists rest. reflexivity.
  - split; auto.
  - discriminate.
Qed.

End WithAddon.

(** A binding that reports no GPU type at first is asked to reload its
    backends from the directory of the binary. *)
Lemma reprobe_exactly_when_needed_witness :
  Spec.reprobeCondition None (Gpu "cuda")
  /\ existsb Spec.isReprobe
       (calls (after (onMessage (Examples.reportingAddon None)
                                (Test "/bins/linux-x64-cuda/llama-addon.node"
                                      (Gpu "cuda"))
                                Examples.loadedState))) = true.
Proof.
  assert (Hc : Spec.reprobeCondition None (Gpu "cuda")) by (left; reflexivity).
  split; [exact Hc|].
  apply (proj1 (@reprobe_exactly_when_needed unit (Examples.reportingAddon None)
                  "/bins/linux-x64-cuda/llama-addon.node" (Gpu "cuda")
                  Examples.loadedState tt tt tt None
                  eq_refl eq_refl eq_refl eq_refl)).
  exact Hc.
Defined.

End WorkerFacts.

Module SessionFacts.
Import Protocol.

Section WithSystem.
Variable B : Type.
Variable addon : Worker.Addon B.
Variable req : Supervisor.Request.

Lemma run_quiescent (forkType : Supervisor.ForkType) (fuel : nat)
      (sys : Session.System B) :
  Session.inbox sys = [] ->
  Session.run addon req forkType fuel sys = sys.
Proof.
  intros H. destruct fuel; simpl; [reflexivity|].
  unfold Session.step. rewrite H. reflexivity.
Qed.

(** The "test" branch ends in [process.exit(1)] when the GPU type
    reported after initialization is not the expected one. *)
Lemma mismatch_exits (s1 : Worker.State B) (reported : GpuType) :
  Spec.initializesAndReports addon req s1 reported ->
  strictEquals reported (Supervisor.gpu req) = false ->
  exists s2,
    Worker.onMessage addon
      (Test (Supervisor.bindingBinaryPath req) (Supervisor.gpu req)) s1
    = {| Worker.after := s2; Worker.sent := []; Worker.exitCode := Some 1%Z |}.
Proof.
  intros (b & st & Hb & Hrun) Hne.
  unfold Worker.onMessage. rewrite Hb.
  unfold Worker.testBody, Worker.bind at 1 2. rewrite Hrun, Hne. simpl.
  destruct st as [b' log]. eexists. reflexivity.
Qed.

Lemma handle_message_actions (forkType : Supervisor.ForkType)
      (m : ChildToParentMessage) (s : Supervisor.State) :
  snd (Supervisor.handle req forkType (Supervisor.OnMessage m) s)
  = map Supervisor.SendMessage (Spec.reply req (Supervisor.OnMessage m)).
Proof.
  destruct s. destruct m; destruct forkType; SupervisorFacts.run_step.
Qed.

Lemma deliver_to_dead (forkType : Supervisor.ForkType)
      (acts : list Supervisor.Action) (sys : Session.System B) (c : option Z) :
  Session.workerExit sys = Some c ->
  fold_left (Session.deliver addon) acts sys = sys.
Proof.
  intros H. induction acts as [|a acts IH]; simpl; [reflexivity|].
  unfold Session.deliver at 2. rewrite H. exact IH.
Qed.

(** One step of a session on a message of the Worker. *)
Lemma step_on_message (forkType : Supervisor.ForkType) (sys : Session.System B)
      (m : ChildToParentMessage) (rest : list Supervisor.Event)
      (x : ParentToChildMessage) :
  Session.inbox sys = Supervisor.OnMessage m :: rest ->
  Session.workerExit sys = None ->
  Spec.reply req (Supervisor.OnMessage m) = [x] ->
  exists sys',
    Session.step addon req forkType sys = Some sys'
    /\ Session.supervisor sys'
       = fst (Supervisor.handle req forkType (Supervisor.OnMessage m)
                (Session.supervisor sys))
    /\ Session.worker sys'
       = Worker.after (Worker.onMessage addon x (Session.worker sys))
    /\ Session.workerExit sys'
       = Session.exitStatus
           (Worker.exitCode (Worker.onMessage addon x (Session.worker sys)))
    /\ Session.workerSent sys'
       = Session.workerSent sys
           ++ Worker.sent (Worker.onMessage addon x (Session.worker sys))
    /\ Session.delivered sys'
       = Session.delivered sys ++ [Supervisor.OnMessage m]
    /\ Session.inbox sys'
       = rest
           ++ map Supervisor.OnMessage
                (Worker.sent (Worker.onMessage addon x (Session.worker sys)))
           ++ Session.exitEvents
                (Worker.exitCode (Worker.onMessage addon x (Session.worker sys))).
Proof.
  intros Hin Hex Hrep.
  unfold Session.step. rewrite Hin.
  pose proof (handle_message_actions forkType m (Session.supervisor sys)) as Ha.
  destruct (Supervisor.handle req forkType (Supervisor.OnMessage m)
              (Session.supervisor sys)) as [s' acts].
  cbn [snd] in Ha. rewrite Ha, Hrep. simpl.
  unfold Session.deliver. simpl. rewrite Hex.
  eexists. split; [reflexivity|]. simpl. repeat split; reflexivity.
Qed.

(** One step of a session on the exit of the Worker. *)
Lemma step_on_exit (forkType : Supervisor.ForkType) (sys : Session.System B)
      (code c : option Z) (rest : list Supervisor.Event) :
  Session.inbox sys = Supervisor.OnExit code :: rest ->
  Session.workerExit sys = Some c ->
  exists sys',
    Session.step addon req forkType sys = Some sys'
    /\ Session.supervisor sys'
       = fst (Supervisor.handle req forkType (Supervisor.OnExit code)
                (Session.supervisor sys))
    /\ Session.workerExit sys' = Some c
    /\ Session.workerSent sys' = Session.workerSent sys
    /\ Session.delivered sys'
       = Session.delivered sys ++ [Supervisor.OnExit code]
    /\ Session.inbox sys' = rest.
Proof.
  intros Hin Hex.
  unfold Session.step. rewrite Hin.
  destruct (Supervisor.handle req forkType (Supervisor.OnExit code)
              (Session.supervisor sys)) as [s' acts].
  rewrite (@deliver_to_dead forkType acts _ c) by exact Hex.
  eexists. split; [reflexivity|]. simpl. repeat split; auto.
Qed.

(** C2 (amended): when the binary loads and initializes but reports a
    GPU type other than the expected one, the Worker never sends
    "done" and ends with [process.exit(1)], not with a clean exit; the
    Supervisor sees an exit with a non-zero code and the call resolves
    to [false], as for any other failure of the test. *)
Theorem mismatch_exits_with_code_1
        (rt : Supervisor.Runtime) (s1 : Worker.State B)
        (reported : GpuType) (fuel : nat) :
  Spec.reachesFork rt ->
  Spec.spawnedAlive rt ->
  Spec.binaryLoads addon req s1 ->
  Spec.initializesAndReports addon req s1 reported ->
  strictEquals reported (Supervisor.gpu req) = false ->
  (3 <= fuel)%nat ->
  let sys := Session.session addon req (fst (Supervisor.getForkFunction rt))
                             rt fuel in
  Session.workerExit sys = Some (Some 1%Z)
  /\ ~ Spec.exitsCleanly sys
  /\ Session.workerSent sys = [Ready; Loaded]
  /\ Session.delivered sys
     = [Supervisor.OnMessage Ready; Supervisor.OnMessage Loaded;
        Supervisor.OnExit (Some 1%Z)]
  /\ Session.quiescent sys = true
  /\ Supervisor.racePromise (Session.supervisor sys)
     = Some (Supervisor.Resolved false)
  /\ Supervisor.outcome
       (Supervisor.testBindingBinary rt req (Session.delivered sys))
     = Some (Supervisor.Resolved false).
Proof.
  intros Hf Ha Hload Hinit Hne Hfuel sys.
  destruct (mismatch_exits Hinit Hne) as [s2 Htest].
  unfold Spec.binaryLoads in Hload.
  set (forkType := fst (Supervisor.getForkFunction rt)) in *.
  assert (Hsys :
    Session.workerExit sys = Some (Some 1%Z)
    /\ Session.workerSent sys = [Ready; Loaded]
    /\ Session.delivered sys
       = [Supervisor.OnMessage Ready; Supervisor.OnMessage Loaded;
          Supervisor.OnExit (Some 1%Z)]
    /\ Session.inbox sys = []
    /\ Supervisor.racePromise (Session.supervisor sys)
       = Some (Supervisor.Resolved false)).
  { subst sys.
    destruct fuel as [|[|[|fuel]]]; try lia.
    unfold Session.session.
    destruct (SupervisorFacts.startTest_alive forkType Ha)
      as (s0 & Hs0 & Haw0 & Hfs0 & Hps0).
    (* the first event: "ready" *)
    assert (Hboot : exists sys0,
               Session.boot B forkType rt = sys0
               /\ Session.supervisor sys0 = s0
               /\ Session.worker sys0 = Worker.initialState B
               /\ Session.workerExit sys0 = None
               /\ Session.workerSent sys0 = [Ready]
               /\ Session.delivered sys0 = []
               /\ Session.inbox sys0 = [Supervisor.OnMessage Ready]).
    { unfold Session.boot. rewrite Hs0. eexists. split; [reflexivity|].
      simpl. repeat split; reflexivity. }
    destruct Hboot as (sys0 & -> & Hsup0 & Hwk0 & Hex0 & Hsent0 & Hdel0 & Hin0).
    destruct (@step_on_message forkType sys0 Ready [] _ Hin0 Hex0 eq_refl)
      as (sys1 & Hstep1 & Hsup1 & Hwk1 & Hex1 & Hsent1 & Hdel1 & Hin1).
    rewrite Hwk0, Hload in *. simpl in Hwk1, Hex1, Hsent1, Hin1.
    destruct (@step_on_message forkType sys1 Loaded [] _ Hin1 Hex1 eq_refl)
      as (sys2 & Hstep2 & Hsup2 & Hwk2 & Hex2 & Hsent2 & Hdel2 & Hin2).
    rewrite Hwk1, Htest in *. simpl in Hwk2, Hex2, Hsent2, Hin2.
    destruct (@step_on_exit forkType sys2 (Some 1%Z) _ [] Hin2 Hex2)
      as (sys3 & Hstep3 & Hsup3 & Hex3 & Hsent3 & Hdel3 & Hin3).
    simpl Session.run. rewrite Hstep1, Hstep2, Hstep3.
    rewrite run_quiescent by exact Hin3.
    split; [exact Hex3|].
    split; [rewrite Hsent3, Hsent2, Hsent1, Hsent0; reflexivity|].
    split; [rewrite Hdel3, Hdel2, Hdel1, Hdel0; reflexivity|].
    split; [exact Hin3|].
    rewrite Hsup3, Hsup2, Hsup1, Hsup0.
    destruct (SupervisorFacts.message_keeps_awaiting req forkType Ready Haw0)
      as (Haw1 & Hfs1 & Hps1 & _).
    destruct (SupervisorFacts.message_keeps_awaiting req forkType Loaded Haw1)
      as (Haw2 & Hfs2 & Hps2 & _).
    rewrite (SupervisorFacts.exit_while_awaiting req forkType (Some 1%Z) Haw2).
    rewrite Hfs2, Hps2, Hfs1, Hps1, Hfs0, Hps0. reflexivity. }
  destruct Hsys as (Hexit & Hsent & Hdel & Hin & Hrace).
  split; [exact Hexit|].
  split; [unfold Spec.exitsCleanly; rewrite Hexit; discriminate|].
  split; [exact Hsent|]. split; [exact Hdel|].
  split; [unfold Session.quiescent; rewrite Hin; reflexivity|].
  split; [exact Hrace|].
  rewrite Hdel.
  change [Supervisor.OnMessage Ready; Supervisor.OnMessage Loaded;
          Supervisor.OnExit (Some 1%Z)]
    with ([Supervisor.OnMessage Ready; Supervisor.OnMessage Loaded]
            ++ Supervisor.OnExit (Some 1%Z) :: []).
  rewrite (@SupervisorFacts.outcome_on_first_exit rt req
             [Supervisor.OnMessage Ready; Supervisor.OnMessage Loaded] []
             (Some 1%Z) Hf Ha eq_refl eq_refl).
  reflexivity.
Qed.

End WithSystem.

(** A Worker whose binding loads and reports the expected GPU type goes
    through the whole handshake and the call resolves to [true]. *)
Example full_handshake_passes :
  let sys := Session.session (Examples.reportingAddon (Some (Gpu "cuda")))
                             Examples.cudaRequest Supervisor.NodeFork
                             Examples.nodeRuntime 10 in
  Session.delivered sys
    = [Supervisor.OnMessage Ready; Supervisor.OnMessage Loaded;
       Supervisor.OnMessage Done; Supervisor.OnExit (Some 0%Z)]
  /\ Supervisor.sentMessages (Session.trace sys)
     = [Start (Supervisor.bindingBinaryPath Examples.cudaRequest) (Gpu "cuda");
        Test (Supervisor.bindingBinaryPath Examples.cudaRequest) (Gpu "cuda");
        Exit]
  /\ Supervisor.racePromise (Session.supervisor sys)
     = Some (Supervisor.Resolved true).
Proof. vm_compute. auto. Qed.

(** A binary that cannot be loaded ends the Worker with code 1 right
    after "start", and the call resolves to [false]. *)
Example load_failure_resolves_false :
  let sys := Session.session Examples.brokenAddon Examples.cudaRequest
                             Supervisor.NodeFork Examples.nodeRuntime 10 in
  Session.delivered sys
    = [Supervisor.OnMessage Ready; Supervisor.OnExit (Some 1%Z)]
  /\ Supervisor.racePromise (Session.supervisor sys)
     = Some (Supervisor.Resolved false).
Proof. vm_compute. auto. Qed.

(** The identity-check scenario: the binding reports "vulkan" while
    "cuda" is expected. *)
Lemma mismatch_exits_with_code_1_witness :
  Spec.reachesFork Examples.nodeRuntime
  /\ Spec.spawnedAlive Examples.nodeRuntime
  /\ Spec.binaryLoads Examples.vulkanAddon Examples.cudaRequest Examples.loadedState
  /\ Spec.initializesAndReports Examples.vulkanAddon Examples.cudaRequest
                                Examples.loadedState (Some (Gpu "vulkan"))
  /\ Session.workerExit
       (Session.session Examples.vulkanAddon Examples.cudaRequest
          (fst (Supervisor.getForkFunction Examples.nodeRuntime))
          Examples.nodeRuntime 3)
     = Some (Some 1%Z).
Proof.
  assert (Hf : Spec.reachesFork Examples.nodeRuntime) by (split; reflexivity).
  assert (Ha : Spec.spawnedAlive Examples.nodeRuntime) by (split; reflexivity).
  assert (Hl : Spec.binaryLoads Examples.vulkanAddon Examples.cudaRequest
                                Examples.loadedState) by reflexivity.
  assert (Hi : Spec.initializesAndReports Examples.vulkanAddon Examples.cudaRequest
                 Examples.loadedState (Some (Gpu "vulkan"))).
  { exists tt. eexists. split; reflexivity. }
  split; [exact Hf|]. split; [exact Ha|]. split; [exact Hl|]. split; [exact Hi|].
  exact (proj1 (@mismatch_exits_with_code_1 unit Examples.vulkanAddon
                  Examples.cudaRequest Examples.nodeRuntime Examples.loadedState
                  (Some (Gpu "vulkan")) 3 Hf Ha Hl Hi eq_refl (le_n 3))).
Defined.

(** C2 as stated fails: with a binding that reports "vulkan" where
    "cuda" is expected, the Worker does not exit cleanly: its exit code
    is 1, the one of every failed test. *)
Lemma mismatch_is_not_a_graceful_failure :
  ~ Spec.gracefulFailure
      (Session.session Examples.vulkanAddon Examples.cudaRequest
                       Supervisor.NodeFork Examples.nodeRuntime 10).
Proof.
  intros [_ H]. unfold Spec.exitsCleanly in H. vm_compute in H. discriminate H.
Qed.

End SessionFacts.

(* ===================================================================== *)
(** * Further properties of the Detector                                  *)
(* ===================================================================== *)

Section RankingOrder.
Variable parse : string -> option Semver.Version.
Variable cudaFolderPrefix : string.

Lemma insertSorted_perm (x : string) (l : list string) :
  Permutation (insertSorted (versionComparator parse cudaFolderPrefix) x l)
              (x :: l).
Proof.
  induction l as [|y l IH]; simpl; [reflexivity|].
  destruct (versionComparator parse cudaFolderPrefix x y <=? 0)%Z;
    [reflexivity|].
  rewrite IH. apply perm_swap.
Qed.

Lemma jsSort_perm (l : list string) :
  Permutation (jsSort (versionComparator parse cudaFolderPrefix) l) l.
Proof.
  induction l as [|x l IH]; simpl; [reflexivity|].
  rewrite insertSorted_perm. now constructor.
Qed.

(** The ranking neither loses nor repeats nor invents a folder: it is a
    rearrangement of the names that carry the prefix (whatever their
    case), and of nothing else. *)
Theorem ranking_is_a_rearrangement (names : list string) :
  Permutation (rankInstallationFolders parse cudaFolderPrefix names)
              (Spec.candidates cudaFolderPrefix names)
  /\ forall n, In n (rankInstallationFolders parse cudaFolderPrefix names) <->
               (In n names
                /\ JsString.startsWith (JsString.toLowerCase n) cudaFolderPrefix
                   = true).
Proof.
  assert (H : Permutation (rankInstallationFolders parse cudaFolderPrefix names)
                          (Spec.candidates cudaFolderPrefix names)).
  { unfold rankInstallationFolders. fold (Spec.candidates cudaFolderPrefix names).
    rewrite <- Permutation_rev. apply jsSort_perm. }
  split; [exact H|].
  intros n. split.
  - intros Hin. apply (Permutation_in _ H) in Hin.
    unfold Spec.candidates in Hin. now apply filter_In in Hin.
  - intros Hin. apply (Permutation_in _ (Permutation_sym H)).
    unfold Spec.candidates. now apply filter_In.
Qed.

Lemma StronglySorted_after (R : string -> string -> Prop)
      (l1 l2 : list string) (a : string) :
  StronglySorted R (l1 ++ a :: l2) -> Forall (R a) l2.
Proof.
  induction l1 as [|x l1 IH]; simpl; intros H; inversion H; subst; auto.
Qed.

(** Among the folders with a parsable version, the ranking is by
    descending version: a folder that comes later never has a greater
    version than one that comes before it. *)
Theorem ranking_descends_by_version
        (names l1 l2 : list string) (a b : string) (va vb : Semver.Version) :
  rankInstallationFolders parse cudaFolderPrefix names = l1 ++ a :: l2 ->
  In b l2 ->
  folderVersion parse cudaFolderPrefix a = Some va ->
  folderVersion parse cudaFolderPrefix b = Some vb ->
  Spec.lexLe vb va.
Proof.
  intros Hr Hb Ha Hvb.
  assert (Hs : StronglySorted
                 (fun x y => (versionComparator parse cudaFolderPrefix y x <= 0)%Z)
                 (rankInstallationFolders parse cudaFolderPrefix names)).
  { unfold rankInstallationFolders. apply StronglySorted_rev, jsSort_sorted. }
  rewrite Hr in Hs. apply StronglySorted_after in Hs.
  rewrite Forall_forall in Hs. specialize (Hs b Hb).
  unfold versionComparator in Hs. unfold folderVersion in Ha, Hvb.
  rewrite Ha, Hvb in Hs. now apply SemverFacts.compare_le_iff.
Qed.

End RankingOrder.

Lemma ranking_descends_by_version_witness :
  rankInstallationFolders Semver.validCoerce "cuda-"
                          ["cuda-11.8"; "cuda-12.4"; "cuda-12"]
    = [] ++ "cuda-12.4" :: ["cuda-12"; "cuda-11.8"]
  /\ Spec.lexLe (11, 8, 0)%N (12, 4, 0)%N.
Proof.
  assert (H : rankInstallationFolders Semver.validCoerce "cuda-"
                ["cuda-11.8"; "cuda-12.4"; "cuda-12"]
              = [] ++ "cuda-12.4" :: ["cuda-12"; "cuda-11.8"])
    by (vm_compute; reflexivity).
  split; [exact H|].
  apply (@ranking_descends_by_version Semver.validCoerce "cuda-"
           ["cuda-11.8"; "cuda-12.4"; "cuda-12"] [] ["cuda-12"; "cuda-11.8"]
           "cuda-12.4" "cuda-11.8" (12, 4, 0)%N (11, 8, 0)%N H).
  - right. left. reflexivity.
  - vm_compute. reflexivity.
  - vm_compute. reflexivity.
Defined.

Module DetectorExtras.
Import Detector.

Lemma mapM_existing (h : Host) (l : list string) :
  mapM (fun p => if pathExists h p then Ok (Some p) else Ok None) l
  = Ok (map (fun p => if pathExists h p then Some p else None) l).
Proof.
  induction l as [|x l IH]; simpl; [reflexivity|].
  rewrite IH. destruct (pathExists h x); reflexivity.
Qed.

Lemma definedPaths_existing (h : Host) (l : list string) :
  definedPaths (map (fun p => if pathExists h p then Some p else None) l)
  = filter (pathExists h) l.
Proof.
  induction l as [|x l IH]; simpl; [reflexivity|].
  destruct (pathExists h x); simpl; now rewrite IH.
Qed.

Lemma withCudaPath_cases (h : Host) (l : list string) :
  withCudaPath h l = l
  \/ exists p, env h "CUDA_PATH" = Some p /\ p <> ""%string
               /\ withCudaPath h l = p :: l.
Proof.
  unfold withCudaPath. destruct (env h "CUDA_PATH") as [p|]; [|auto].
  destruct p; simpl; [auto|].
  right. eexists. split; [reflexivity|]. split; [discriminate|reflexivity].
Qed.

(** [getCudaInstallationPaths] only returns folders it has checked: on
    Windows every returned folder exists, on Linux every returned folder
    has a [targets] sub-folder, and on any other platform nothing is
    returned.  No failure of a directory listing escapes it. *)
Theorem installation_paths_are_checked (h : Host) (platform : BinaryPlatform) :
  exists l,
    getCudaInstallationPaths h platform = Ok l
    /\ Forall (Spec.isInstallation h platform) l.
Proof.
  destruct platform; simpl; try (eexists; split; [reflexivity|constructor]).
  - destruct (getWindowsProgramFilesPaths h) as [pf|e]; simpl;
      [|eexists; split; [reflexivity|constructor]].
    destruct (mapM _ _) as [per|e]; simpl;
      [|eexists; split; [reflexivity|constructor]].
    eexists; split; [reflexivity|].
    unfold existing. apply Forall_forall. intros p Hp.
    apply filter_In in Hp. exact (proj2 Hp).
  - destruct (if pathExists h "/usr/local" then readdir h "/usr/local" else Ok [])
      as [names|e]; simpl; [|eexists; split; [reflexivity|constructor]].
    eexists; split; [reflexivity|].
    apply Forall_forall. intros p Hp.
    apply filter_In in Hp. exact (proj2 Hp).
Qed.

(** On Linux the folder named by CUDA_PATH, when it is set, not empty and
    has a [targets] sub-folder, is the first installation returned,
    provided /usr/local can be listed (or does not exist).  When the
    listing of /usr/local fails, nothing is returned at all, CUDA_PATH
    included. *)
Theorem cuda_path_comes_first_on_linux (h : Host) (p : string) :
  env h "CUDA_PATH" = Some p ->
  p <> ""%string ->
  pathExists h (p ++ "/targets")%string = true ->
  ((pathExists h "/usr/local" = false \/ exists names, readdir h "/usr/local" = Ok names) ->
   exists rest, getCudaInstallationPaths h Linux = Ok (p :: rest))
  /\ (pathExists h "/usr/local" = true ->
      (exists e, readdir h "/usr/local" = Throw e) ->
      getCudaInstallationPaths h Linux = Ok []).
Proof.
  intros Henv Hne Htargets. split.
  - intros Hlist.
    assert (Hnames : exists names,
               (if pathExists h "/usr/local" then readdir h "/usr/local" else Ok [])
               = Ok names).
    { destruct Hlist as [-> | [names Hn]]; [eauto|].
      destruct (pathExists h "/usr/local"); eauto. }
    destruct Hnames as [names Hn].
    simpl. rewrite Hn. simpl.
    unfold withCudaPath. rewrite Henv.
    destruct p as [|c p']; [congruence|]. simpl JsString.isEmpty. cbv iota.
    cbn [filter]. rewrite Htargets. eexists. reflexivity.
  - intros Hex [e He]. simpl. rewrite Hex, He. reflexivity.
Qed.

Lemma cuda_path_comes_first_on_linux_witness :
  exists rest,
    getCudaInstallationPaths Examples.cudaPathHost Linux
    = Ok ("/opt/cuda"%string :: rest).
Proof.
  apply (proj1 (@cuda_path_comes_first_on_linux Examples.cudaPathHost
                  "/opt/cuda" eq_refl ltac:(discriminate) eq_refl)).
  left. reflexivity.
Defined.

(** [getCudaNvccPaths] never fails, and what it returns is, in the same
    order, the [bin/nvcc] (on Windows [bin/nvcc.exe]) of the
    installations returned by [getCudaInstallationPaths], without those
    that do not exist: every path returned exists. *)
Theorem nvcc_paths_exist (h : Host) (platform : BinaryPlatform) :
  exists installations l,
    getCudaInstallationPaths h platform = Ok installations
    /\ getCudaNvccPaths h platform = Ok l
    /\ l = filter (pathExists h)
              (map (fun i => pathJoin h [i; "bin"%string; Spec.nvccName platform])
                   installations)
    /\ Forall (fun p => pathExists h p = true) l.
Proof.
  destruct (DetectorFacts.getCudaInstallationPaths_ok h platform) as (ins & Hins).
  exists ins. eexists. split; [exact Hins|].
  split; [|split; [reflexivity|]].
  - unfold getCudaNvccPaths. rewrite Hins. simpl.
    rewrite mapM_existing. simpl. rewrite definedPaths_existing.
    destruct platform; reflexivity.
  - apply Forall_forall. intros p Hp. apply filter_In in Hp. exact (proj2 Hp).
Qed.

Lemma dedupe_In (seen l : list string) (x : string) :
  In x (dedupe seen l) <-> In x l /\ ~ In x seen.
Proof.
  revert seen; induction l as [|y l IH]; intros seen; simpl.
  - tauto.
  - destruct (existsb (String.eqb y) seen) eqn:E.
    + rewrite IH. apply existsb_exists in E as (z & Hz & Hyz).
      apply String.eqb_eq in Hyz; subst z.
      split; [tauto|]. intros [[->|H] Hn]; tauto.
    + simpl. rewrite IH. simpl.
      assert (Hy : ~ In y seen).
      { intros Hy. rewrite <- not_true_iff_false in E. apply E.
        apply existsb_exists. exists y. split; [exact Hy|apply String.eqb_refl]. }
      split.
      * intros [->|[H1 H2]]; [tauto|]. split; [tauto|]. tauto.
      * intros [[->|H1] H2]; [tauto|].
        destruct (string_dec y x) as [->|Hne]; [tauto|]. right. tauto.
Qed.

Lemma dedupe_NoDup (seen l : list string) : NoDup (dedupe seen l).
Proof.
  revert seen; induction l as [|y l IH]; intros seen; simpl; [constructor|].
  destruct (existsb (String.eqb y) seen); [apply IH|].
  constructor; [|apply IH].
  rewrite dedupe_In. simpl. tauto.
Qed.

Lemma definedPaths_In (l : list (option string)) (x : string) :
  In x (definedPaths l) <-> In (Some x) l.
Proof.
  unfold definedPaths. rewrite in_flat_map. split.
  - intros ([y|] & Hy & Hx); simpl in Hx; [|contradiction].
    destruct Hx as [->|[]]. exact Hy.
  - intros H. exists (Some x). split; [exact H|]. left. reflexivity.
Qed.

(** [getWindowsProgramFilesPaths] never fails and returns existing
    folders, each of them once. *)
Theorem program_files_paths_are_distinct_and_exist (h : Host) :
  exists l,
    getWindowsProgramFilesPaths h = Ok l
    /\ NoDup l
    /\ Forall (fun p => pathExists h p = true) l.
Proof.
  unfold getWindowsProgramFilesPaths.
  set (candidates := [env h "ProgramFiles(Arm)"; env h "ProgramFiles";
                      env h "ProgramFiles(x86)"; _; _; _]).
  assert (Hm : exists r,
             mapM (fun programFilesPath : option string =>
                     match programFilesPath with
                     | Some p => if pathExists h p then Ok (Some p) else Ok None
                     | None => Ok None
                     end) candidates = Ok r
             /\ forall x, In (Some x) r -> pathExists h x = true).
  { generalize candidates. intros c. induction c as [|o c (r & Hr & Hall)]; simpl.
    - exists []. split; [reflexivity|]. intros x [].
    - rewrite Hr. destruct o as [p|]; [destruct (pathExists h p) eqn:E|]; simpl.
      + eexists. split; [reflexivity|]. intros x [Hx|Hx]; [congruence|auto].
      + eexists. split; [reflexivity|]. intros x [Hx|Hx]; [congruence|auto].
      + eexists. split; [reflexivity|]. intros x [Hx|Hx]; [congruence|auto]. }
  destruct Hm as (r & Hr & Hall). rewrite Hr. simpl.
  eexists. split; [reflexivity|]. split; [apply dedupe_NoDup|].
  apply Forall_forall. intros x Hx.
  apply dedupe_In in Hx as [Hx _]. apply definedPaths_In in Hx. auto.
Qed.









(** Every library folder returned by [getLinuxCudaLibraryPaths] is the
    [lib] or [lib/stubs] folder of a target listed in the existing
    [targets] folder of an installation returned by
    [getCudaInstallationPaths]; the call itself never fails. *)
Theorem linux_library_paths_come_from_targets (h : Host) :
  exists installations l,
    getCudaInstallationPaths h Linux = Ok installations
    /\ getLinuxCudaLibraryPaths h = Ok l
    /\ forall p, In p l ->
         exists i names n,
           In i installations
           /\ pathExists h (i ++ "/targets")%string = true
           /\ readdir h (i ++ "/targets")%string = Ok names
           /\ In n names
           /\ (p = ((i ++ "/targets") ++ "/" ++ n ++ "/lib")%string
               \/ p = ((i ++ "/targets") ++ "/" ++ n ++ "/lib/stubs")%string).
Proof.
  destruct (DetectorFacts.getCudaInstallationPaths_ok h Linux) as (ins & Hins).
  exists ins. eexists. split; [exact Hins|].
  unfold getLinuxCudaLibraryPaths. rewrite Hins. split; [reflexivity|].
  set (Form := fun (all : list string) (p : string) =>
         exists i names n,
           In i all
           /\ pathExists h (i ++ "/targets")%string = true
           /\ readdir h (i ++ "/targets")%string = Ok names
           /\ In n names
           /\ (p = ((i ++ "/targets") ++ "/" ++ n ++ "/lib")%string
               \/ p = ((i ++ "/targets") ++ "/" ++ n ++ "/lib/stubs")%string)).
  assert (Hloop : forall l res,
             (forall i, In i l -> In i ins) ->
             (forall p, In p res -> Form ins p) ->
             forall p, In p (fst (libraryPathsLoop h l res)) -> Form ins p).
  { induction l as [|i l IH]; intros res Hsub Hres p; simpl; [apply Hres|].
    destruct (pathExists h (i ++ "/targets")%string) eqn:Ex; simpl.
    - destruct (readdir h (i ++ "/targets")%string) as [names|e] eqn:Er;
        simpl; [|apply Hres].
      apply IH; [intros; apply Hsub; right; assumption|].
      intros q Hq. apply in_app_or in Hq as [Hq|Hq]; [apply Hres; exact Hq|].
      apply in_flat_map in Hq as (n & Hn & Hq).
      exists i, names, n. split; [apply Hsub; left; reflexivity|].
      split; [exact Ex|]. split; [exact Er|]. split; [exact Hn|].
      simpl in Hq.
      destruct Hq as [<-|[<-|[]]]; [left|right]; reflexivity.
    - apply IH; [intros; apply Hsub; right; assumption|exact Hres]. }
  intros p Hp. apply (Hloop ins [] (fun i H => H)); [intros q []|exact Hp].
Qed.

End DetectorExtras.

(* ===================================================================== *)
(** * Further properties of the Supervisor                                *)
(* ===================================================================== *)

Module SupervisorExtras.
Import Protocol Supervisor.

Ltac run_step := SupervisorFacts.run_step.

Section WithRequest.
Variable req : Request.
Variable forkType : ForkType.

Lemma timeout_rejects_with_timed_out (s : State) :
  racePromise s = None -> testPromise s = None ->
  (racePromise (fst (handle req forkType OnTimeout s)) = None
   \/ racePromise (fst (handle req forkType OnTimeout s))
      = Some (Rejected TimedOutError))
  /\ testPromise (fst (handle req forkType OnTimeout s)) = None
  /\ forkSucceeded (fst (handle req forkType OnTimeout s)) = forkSucceeded s
  /\ testPassed (fst (handle req forkType OnTimeout s)) = testPassed s.
Proof.
  destruct s; simpl; intros; subst.
  destruct forkType; run_step; repeat split; eauto.
Qed.

(** How a settled race came about, from a state where nothing is
    settled: by the timer, or by the first exit of the child. *)
Lemma settled_inversion (evs : list Event) (s : State) (o : Outcome) :
  racePromise s = None -> testPromise s = None ->
  racePromise (fst (handleAll req forkType evs s)) = Some o ->
  (o = Rejected TimedOutError /\ In OnTimeout evs)
  \/ exists pre code post,
       evs = pre ++ OnExit code :: post
       /\ Spec.noExitIn pre
       /\ o = Spec.exitOutcome (forkSucceeded s || Spec.received Ready pre)
                               (testPassed s || Spec.received Done pre) code.
Proof.
  unfold Spec.noExitIn, Spec.received.
  revert s; induction evs as [|e evs IH]; intros s Hr Ht Hfin.
  - simpl in Hfin; congruence.
  - rewrite SupervisorFacts.handleAll_cons in Hfin.
    destruct e as [m|code| |].
    + destruct (SupervisorFacts.message_while_pending req forkType m s Hr Ht)
        as (Hr1 & Ht1 & Hf1 & Hp1).
      destruct (handle req forkType (OnMessage m) s) as [s1 o1]; simpl in *.
      specialize (IH s1 Hr1 Ht1).
      destruct (handleAll req forkType evs s1) as [s2 o2]; simpl in *.
      destruct (IH Hfin) as [[-> Hin] | (pre & code & post & -> & Hx & ->)];
        [left; auto|].
      right. exists (OnMessage m :: pre), code, post. simpl.
      rewrite Hf1, Hp1, <- !orb_assoc. auto.
    + pose proof (SupervisorFacts.exit_while_pending req forkType code s Hr Ht) as Hx.
      pose proof (SupervisorFacts.handleAll_race_stable req forkType evs
                    (fst (handle req forkType (OnExit code) s)) Hx) as Hst.
      destruct (handle req forkType (OnExit code) s) as [s1 o1]; simpl in *.
      destruct (handleAll req forkType evs s1) as [s2 o2]; simpl in *.
      rewrite Hfin in Hst. inversion Hst as [Ho].
      right. exists [], code, evs. simpl. rewrite !orb_false_r. auto.
    + destruct (timeout_rejects_with_timed_out s Hr Ht) as (Hr1 & Ht1 & Hf1 & Hp1).
      destruct Hr1 as [Hr1|Hr1].
      * destruct (handle req forkType OnTimeout s) as [s1 o1]; simpl in *.
        specialize (IH s1 Hr1 Ht1).
        destruct (handleAll req forkType evs s1) as [s2 o2]; simpl in *.
        destruct (IH Hfin) as [[-> Hin] | (pre & code & post & -> & Hx & ->)];
          [left; auto|].
        right. exists (OnTimeout :: pre), code, post. simpl.
        rewrite Hf1, Hp1. auto.
      * pose proof (SupervisorFacts.handleAll_race_stable req forkType evs
                      (fst (handle req forkType OnTimeout s)) Hr1) as Hst.
        destruct (handle req forkType OnTimeout s) as [s1 o1]; simpl in *.
        destruct (handleAll req forkType evs s1) as [s2 o2]; simpl in *.
        left. split; [congruence|auto].
    + destruct (SupervisorFacts.spawn_while_pending req forkType s Hr Ht)
        as (Hr1 & Ht1 & Hf1 & Hp1).
      destruct (handle req forkType OnSpawn s) as [s1 o1]; simpl in *.
      specialize (IH s1 Hr1 Ht1).
      destruct (handleAll req forkType evs s1) as [s2 o2]; simpl in *.
      destruct (IH Hfin) as [[-> Hin] | (pre & code & post & -> & Hx & ->)];
        [left; auto|].
      right. exists (OnSpawn :: pre), code, post. simpl.
      rewrite Hf1, Hp1. auto.
Qed.

(** No event makes the Supervisor fork again. *)
Lemma handle_no_fork (e : Event) (s : State) :
  filter isFork (snd (handle req forkType e s)) = [].
Proof.
  destruct s. destruct e as [[]|code| |]; destruct forkType; run_step.
Qed.

Lemma handleAll_no_fork (evs : list Event) (s : State) :
  filter isFork (snd (handleAll req forkType evs s)) = [].
Proof.
  revert s; induction evs as [|e evs IH]; intros s; [reflexivity|].
  rewrite SupervisorFacts.handleAll_cons.
  pose proof (handle_no_fork e s) as H1.
  destruct (handle req forkType e s) as [s1 o1]; simpl in H1.
  specialize (IH s1).
  destruct (handleAll req forkType evs s1) as [s2 o2]; simpl in *.
  now rewrite filter_app, H1, IH.
Qed.

Lemma startTest_one_fork (rt : Runtime) :
  filter isFork (snd (startTest forkType rt initialState)) = [Fork forkType]
  /\ pipeSet (fst (startTest forkType rt initialState)) = false.
Proof.
  destruct forkType; unfold initialState; run_step.
Qed.



(** Once the race is settled the timer is cleared and the test is marked
    as finished. *)
Lemma handle_finished (e : Event) (s : State) :
  (racePromise s <> None -> timerPending s = false /\ testFinished s = true) ->
  racePromise (fst (handle req forkType e s)) <> None ->
  timerPending (fst (handle req forkType e s)) = false
  /\ testFinished (fst (handle req forkType e s)) = true.
Proof.
  destruct s as [tp fs tm sa tf p1 p2 p3 hc pk ex ps]; simpl.
  intros H.
  destruct p3 as [o|].
  - destruct H as [-> ->]; [discriminate|].
    destruct e as [[]|code| |]; destruct forkType; run_step.
  - clear H.
    destruct e as [[]|code| |]; destruct forkType; run_step;
      intros; try congruence; auto.
Qed.

Lemma handleAll_finished (evs : list Event) (s : State) :
  (racePromise s <> None -> timerPending s = false /\ testFinished s = true) ->
  racePromise (fst (handleAll req forkType evs s)) <> None ->
  timerPending (fst (handleAll req forkType evs s)) = false
  /\ testFinished (fst (handleAll req forkType evs s)) = true.
Proof.
  revert s; induction evs as [|e evs IH]; intros s H; [exact H|].
  rewrite SupervisorFacts.handleAll_cons.
  pose proof (handle_finished e s H) as H1.
  destruct (handle req forkType e s) as [s1 o1]; simpl in H1.
  specialize (IH s1 H1).
  destruct (handleAll req forkType evs s1) as [s2 o2]; simpl in *.
  exact IH.
Qed.

Lemma startTest_finished (rt : Runtime) :
  racePromise (fst (startTest forkType rt initialState)) <> None ->
  timerPending (fst (startTest forkType rt initialState)) = false
  /\ testFinished (fst (startTest forkType rt initialState)) = true.
Proof.
  destruct forkType; unfold initialState; run_step; intros; try congruence; auto.
Qed.

(** One event keeps the bookkeeping of the child. *)
Lemma handle_accounted (e : Event) (s : State) (killed exitSeen : bool) :
  Spec.accounted forkType s killed exitSeen ->
  Spec.accounted forkType (fst (handle req forkType e s))
                 (killed || existsb isKill (snd (handle req forkType e s)))
                 (exitSeen || isExitEvent e).
Proof.
  unfold Spec.accounted.
  destruct s as [tp fs tm sa tf p1 p2 p3 hc pk ex ps]; simpl.
  intros (-> & Hr & Hf).
  destruct p3 as [o|].
  - assert (Hk : killed || exitSeen = true) by (apply Hr; discriminate).
    clear Hr.
    destruct e as [[]|code| |]; destruct forkType; run_step; simpl;
      repeat split; intros;
      destruct killed, exitSeen; simpl in *; auto; try discriminate;
      try (apply Hf; congruence).
  - clear Hr.
    destruct e as [[]|code| |]; destruct forkType; run_step; simpl;
      repeat split; intros;
      destruct killed, exitSeen; simpl in *; auto; try discriminate;
      try congruence;
      try (apply Hf; congruence).
Qed.

Lemma handleAll_accounted (evs : list Event) (s : State) (killed exitSeen : bool) :
  Spec.accounted forkType s killed exitSeen ->
  Spec.accounted forkType (fst (handleAll req forkType evs s))
                 (killed || existsb isKill (snd (handleAll req forkType evs s)))
                 (exitSeen || existsb isExitEvent evs).
Proof.
  revert s killed exitSeen; induction evs as [|e evs IH];
    intros s killed exitSeen H.
  - simpl. now rewrite !orb_false_r.
  - rewrite SupervisorFacts.handleAll_cons.
    pose proof (handle_accounted e H) as H1.
    destruct (handle req forkType e s) as [s1 o1]; simpl in H1.
    specialize (IH s1 _ _ H1).
    destruct (handleAll req forkType evs s1) as [s2 o2]; simpl in *.
    now rewrite existsb_app, !orb_assoc.
Qed.

Lemma startTest_accounted (rt : Runtime) :
  spawnExitCode rt = None ->
  Spec.accounted forkType (fst (startTest forkType rt initialState))
                 (existsb isKill (snd (startTest forkType rt initialState)))
                 false.
Proof.
  intros Hc. unfold Spec.accounted.
  destruct forkType; unfold initialState; run_step; rewrite ?Hc in *;
    run_step; simpl; repeat split; intros; auto; try congruence.
Qed.

End WithRequest.

Lemma getForkFunction_choice (rt : Runtime) :
  fst (getForkFunction rt) = Spec.chosenFork rt
  /\ filter isFork (snd (getForkFunction rt)) = [].
Proof.
  unfold getForkFunction, Spec.chosenFork.
  destruct (runningInElectron rt), (electronImports rt); simpl; auto.
Qed.

Lemma passesGuards_iff (rt : Runtime) :
  Spec.passesGuards rt = true <-> Spec.reachesFork rt.
Proof.
  unfold Spec.passesGuards, Spec.reachesFork.
  rewrite andb_true_iff, negb_true_iff. tauto.
Qed.

(** The call stays pending as long as the child neither exits nor the
    deadline elapses: no message settles it, "done" included. *)
Theorem pending_until_exit_or_timeout
        (rt : Runtime) (req : Request) (evs : list Event) :
  Spec.reachesFork rt -> Spec.spawnedAlive rt ->
  Spec.noExitIn evs -> Spec.noTimeoutIn evs ->
  outcome (testBindingBinary rt req evs) = None.
Proof.
  intros Hf Ha Hx Ht.
  destruct (SupervisorFacts.run_until req Hf Ha Hx Ht)
    as (forkType & log & s & acts & Hg & Hrun & Haw & _).
  rewrite (SupervisorFacts.testBindingBinary_forked req evs Hf), Hg, Hrun.
  simpl. exact (proj1 Haw).
Qed.

Lemma pending_until_exit_or_timeout_witness :
  outcome (testBindingBinary Examples.nodeRuntime Examples.cudaRequest
             [OnMessage Ready; OnMessage Loaded; OnMessage Done]) = None.
Proof.
  apply pending_until_exit_or_timeout.
  - split; reflexivity.
  - split; reflexivity.
  - reflexivity.
  - reflexivity.
Defined.

(** The result is produced once: whatever happens after the call has
    settled, its outcome stays the same. *)
Theorem settled_for_good
        (rt : Runtime) (req : Request) (evs more : list Event) (o : Outcome) :
  outcome (testBindingBinary rt req evs) = Some o ->
  outcome (testBindingBinary rt req (evs ++ more)) = Some o.
Proof.
  unfold testBindingBinary.
  destruct (negb (JsString.startsWith _ _)); [auto|].
  destruct (nodeSeaDetected rt); [auto|].
  destruct (getForkFunction rt) as [forkType log]. unfold seq.
  destruct (startTest forkType rt initialState) as [s0 o0].
  rewrite SupervisorFacts.handleAll_app.
  destruct (handleAll req forkType evs s0) as [s1 o1] eqn:E1.
  pose proof (SupervisorFacts.handleAll_race_stable req forkType more s1) as Hst.
  destruct (handleAll req forkType more s1) as [s2 o2]; simpl in *.
  intros H. apply Hst. exact H.
Qed.

Lemma settled_for_good_witness :
  outcome (testBindingBinary Examples.nodeRuntime Examples.cudaRequest
             ([OnTimeout] ++ [OnMessage Ready; OnMessage Done; OnExit (Some 0%Z)]))
  = Some (Rejected TimedOutError).
Proof.
  apply settled_for_good. reflexivity.
Defined.

(** Every outcome has its cause.  Once the child is forked and alive, a
    settled call was either rejected with the timed-out error after the
    timer fired, or settled by the first exit of the child: rejected with
    the failed-to-run error when no "ready" came before that exit, and
    otherwise resolved to the boolean "a 'done' came before the exit and
    the exit code is 0". *)
Theorem every_outcome_has_its_cause
        (rt : Runtime) (req : Request) (evs : list Event) (o : Outcome) :
  Spec.reachesFork rt -> Spec.spawnedAlive rt ->
  outcome (testBindingBinary rt req evs) = Some o ->
  (o = Rejected TimedOutError /\ In OnTimeout evs)
  \/ exists pre code post,
       evs = pre ++ OnExit code :: post
       /\ Spec.noExitIn pre
       /\ o = Spec.exitOutcome (Spec.received Ready pre)
                               (Spec.received Done pre) code.
Proof.
  intros Hf Ha.
  rewrite (SupervisorFacts.testBindingBinary_forked req evs Hf).
  destruct (getForkFunction rt) as [forkType log]. unfold seq.
  destruct (SupervisorFacts.startTest_alive forkType Ha)
    as (s0 & Hs0 & Haw & Hfs & Hps).
  rewrite Hs0.
  pose proof (@settled_inversion req forkType evs s0 o
                (proj1 Haw) (proj1 (proj2 Haw))) as Hinv.
  destruct (handleAll req forkType evs s0) as [s1 o1]; simpl in *.
  rewrite Hfs, Hps in Hinv. simpl in Hinv. exact Hinv.
Qed.

Lemma every_outcome_has_its_cause_witness :
  exists pre code post,
    [OnMessage Ready; OnMessage Loaded; OnExit (Some 137%Z)]
    = pre ++ OnExit code :: post
    /\ Spec.noExitIn pre
    /\ Resolved false
       = Spec.exitOutcome (Spec.received Ready pre) (Spec.received Done pre) code.
Proof.
  destruct (@every_outcome_has_its_cause Examples.nodeRuntime Examples.cudaRequest
              [OnMessage Ready; OnMessage Loaded; OnExit (Some 137%Z)]
              (Resolved false)
              (conj eq_refl eq_refl) (conj eq_refl eq_refl) eq_refl)
    as [[H _] | H].
  - discriminate H.
  - exact H.
Defined.

(** A call forks at most one child: exactly one when the guards let it
    through (the file is independent and no SEA is detected; a failing
    import of node:sea counts as "no SEA"), none otherwise; the fork is
    Electron's only when running in Electron and its import succeeds,
    and Node's otherwise. *)
Theorem one_child_per_call (rt : Runtime) (req : Request) (evs : list Event) :
  filter isFork (actions (testBindingBinary rt req evs))
  = if Spec.passesGuards rt then [Fork (Spec.chosenFork rt)] else [].
Proof.
  unfold testBindingBinary, Spec.passesGuards.
  destruct (JsString.startsWith _ _); simpl; [|reflexivity].
  destruct (nodeSeaDetected rt); simpl; [reflexivity|].
  destruct (getForkFunction_choice rt) as [Hc Hl].
  destruct (getForkFunction rt) as [forkType log]; simpl in Hc, Hl. subst forkType.
  unfold seq.
  destruct (startTest_one_fork (Spec.chosenFork rt) rt) as [Hs _].
  destruct (startTest (Spec.chosenFork rt) rt initialState) as [s0 o0]; simpl in Hs.
  pose proof (handleAll_no_fork req (Spec.chosenFork rt) evs s0) as Hh.
  destruct (handleAll req (Spec.chosenFork rt) evs s0) as [s1 o1]; simpl in *.
  now rewrite !filter_app, Hl, Hs, Hh.
Qed.



(** Once the call has settled, the timer is no longer pending and the
    test is marked as finished. *)
Theorem timer_cleared_once_settled
        (rt : Runtime) (req : Request) (evs : list Event) (s : State) (o : Outcome) :
  final (testBindingBinary rt req evs) = Some s ->
  outcome (testBindingBinary rt req evs) = Some o ->
  timerPending s = false /\ testFinished s = true.
Proof.
  unfold testBindingBinary.
  destruct (negb (JsString.startsWith _ _)); [discriminate|].
  destruct (nodeSeaDetected rt); [discriminate|].
  destruct (getForkFunction rt) as [forkType log]. unfold seq.
  pose proof (startTest_finished forkType rt) as H0.
  destruct (startTest forkType rt initialState) as [s0 o0]; simpl in H0.
  pose proof (@handleAll_finished req forkType evs s0 H0) as Hh.
  destruct (handleAll req forkType evs s0) as [s1 o1]; simpl in *.
  intros H Ho; inversion H; subst. apply Hh. congruence.
Qed.

Lemma timer_cleared_once_settled_witness :
  match final (testBindingBinary Examples.nodeRuntime Examples.cudaRequest
                 [OnMessage Ready; OnExit (Some 1%Z)]) with
  | Some s => timerPending s = false /\ testFinished s = true
  | None => False
  end.
Proof.
  destruct (final (testBindingBinary Examples.nodeRuntime Examples.cudaRequest
                     [OnMessage Ready; OnExit (Some 1%Z)])) as [s|] eqn:E.
  - apply (@timer_cleared_once_settled Examples.nodeRuntime Examples.cudaRequest
             [OnMessage Ready; OnExit (Some 1%Z)] s (Resolved false) E eq_refl).
  - vm_compute in E. discriminate E.
Defined.

(** No orphan is left behind.  Once the call has settled, whatever the
    order of the events, the child has exited or has been sent the kill
    signal (provided the handle did not already report an exit code when
    [fork] returned, in which case there was no running child). *)
Theorem no_orphan_once_settled
        (rt : Runtime) (req : Request) (evs : list Event) (o : Outcome) :
  spawnExitCode rt = None ->
  outcome (testBindingBinary rt req evs) = Some o ->
  childRunning evs (testBindingBinary rt req evs) = false.
Proof.
  intros Hc. unfold childRunning, testBindingBinary.
  destruct (negb (JsString.startsWith _ _)); [reflexivity|].
  destruct (nodeSeaDetected rt); [reflexivity|].
  destruct (getForkFunction rt) as [forkType log]. unfold seq.
  pose proof (startTest_accounted forkType rt Hc) as H0.
  destruct (startTest forkType rt initialState) as [s0 o0]; simpl in H0.
  pose proof (@handleAll_accounted req forkType evs s0 _ _ H0) as Hh.
  destruct (handleAll req forkType evs s0) as [s1 o1]; simpl in *.
  intros Ho. destruct Hh as (_ & Hr & _).
  assert (Hk : existsb isKill o0 || existsb isKill o1
               || existsb isExitEvent evs = true).
  { apply Hr. congruence. }
  rewrite !existsb_app.
  destruct (existsb isKill o0), (existsb isKill o1), (existsb isExitEvent evs);
    simpl in *; try discriminate;
    rewrite ?andb_false_r, ?orb_true_r; simpl;
    rewrite ?andb_false_r; auto.
Qed.

Lemma no_orphan_once_settled_witness :
  childRunning [OnMessage Ready; OnMessage Loaded; OnTimeout]
               (testBindingBinary Examples.nodeRuntime Examples.cudaRequest
                  [OnMessage Ready; OnMessage Loaded; OnTimeout]) = false.
Proof.
  apply (@no_orphan_once_settled Examples.nodeRuntime Examples.cudaRequest
           [OnMessage Ready; OnMessage Loaded; OnTimeout]
           (Rejected TimedOutError) eq_refl eq_refl).
Defined.

End SupervisorExtras.

(* ===================================================================== *)
(** * Further properties of the Worker and of sessions                    *)
(* ===================================================================== *)

Module WorkerExtras.
Import Protocol Worker.

Section WithAddon.
Variable B : Type.
Variable addon : Addon B.





End WithAddon.


End WorkerExtras.

Module SessionExtras.
Import Protocol.

Section WithSystem.
Variable B : Type.
Variable addon : Worker.Addon B.
Variable req : Supervisor.Request.
Variable forkType : Supervisor.ForkType.









End WithSystem.


End SessionExtras.
